(** * Deepfake-detection pipeline: detectors, decision wrappers, evaluators, orchestrator

    A shallow embedding of the Python sources under [notebooks/models]:

    - [blink_detector.py], [level-3-headpose/headpose_detector.py],
      [level-4-texture/texture_detector.py]   (the detectors),
    - [level-N-*/evaluate_*.py]               (decision wrappers and dataset evaluators),
    - [orchestrator.py]                        (the process-per-family orchestrator).

    Conventions.  Python [int]s are [Z]; Python [float]s are idealised as exact
    rationals [Q] (no rounding); a result dictionary whose key order is never
    observed is a [gmap string pyval]; the orchestrator's [results] dictionary,
    whose key order is printed, is an association list in insertion order.
    Library functions that leave the rationals ([np.sqrt], [np.arctan2]) are
    section variables.  Console output and debug-frame export are not modelled. *)

From Stdlib Require Import ZArith QArith Qfield Lia Lqa String Ascii Bool.
From stdpp Require Import gmap strings list fin_maps sorting.

Local Open Scope Z_scope.

(** ** Python values *)

Module Py.

#[warnings="-register-all"] Inductive pyval : Type :=
| PNone
| PBool (b : bool)
| PInt (n : Z)
| PFloat (q : Q)
| PNaN
| PStr (s : string)
| PList (l : list pyval).

(** A call either returns or raises (the exception's [str(e)]). *)
Inductive outcome (A : Type) : Type :=
| Returns (a : A)
| Raises (e : string).
Arguments Returns {A} a.
Arguments Raises {A} e.

#[export] Instance outcome_ret : MRet outcome := fun A a => Returns a.
#[export] Instance outcome_bind : MBind outcome := fun A B k m =>
  match m with
  | Returns a => k a
  | Raises e => Raises e
  end.

(** [a < b] on the idealised floats. *)
Definition Qltb (a b : Q) : bool := negb (Qle_bool b a).

(** Python truthiness, as used by [if x:] and [not x]. *)
Definition truthy (v : pyval) : bool :=
  match v with
  | PNone => false
  | PBool b => b
  | PInt n => negb (n =? 0)
  | PFloat q => negb (Qeq_bool q 0)
  | PNaN => true
  | PStr s => negb (String.eqb s EmptyString)
  | PList l => match l with [] => false | _ => true end
  end.

(** [d[k]]: a missing key raises [KeyError]. *)
Definition getitem (d : gmap string pyval) (k : string) : outcome pyval :=
  match d !! k with
  | Some v => Returns v
  | None => Raises k
  end.

(** The numeric reading of a value in an ordering comparison with a float;
    [None] stands for the [TypeError] Python raises on the other types. *)
Definition as_number (v : pyval) : option Q :=
  match v with
  | PInt n => Some (inject_Z n)
  | PFloat q => Some q
  | PBool b => Some (if b then 1%Q else 0%Q)
  | _ => None
  end.

Definition sumQ (l : list Q) : Q := foldr Qplus 0%Q l.

(** [np.mean] of a non-empty array. *)
Definition mean (l : list Q) : Q := (sumQ l / inject_Z (Z.of_nat (length l)))%Q.

(** Population variance, [np.var] of a non-empty array. *)
Definition var (l : list Q) : Q :=
  let m := mean l in mean (map (fun x => ((x - m) * (x - m))%Q) l).

End Py.

Import Py.

(** ** blink_detector.py *)

Module BlinkDetector.

Definition EAR_THRESHOLD : Q := 0.25.
Definition CONSEC_FRAMES : Z := 2.

(** The video as the detector sees it: whether [cv2.VideoCapture] opened it,
    and for each decoded frame either [None] (the face mesh found no face) or
    the averaged eye-aspect ratio [ear] of the frame. *)
Record video : Type := { opened : bool; frames : list (option Q) }.

Record loop_state : Type := {
  blink_count : Z;
  counter : Z;
  frame_count : Z;
  processed_frames : Z;
  ear_history : list Q;
  debug_frames_saved : Z
}.

Definition init_state : loop_state :=
  {| blink_count := 0; counter := 0; frame_count := 0; processed_frames := 0;
     ear_history := []; debug_frames_saved := 0 |}.

(** [deque(maxlen=n).append(x)]: the oldest entries fall out on the left. *)
Definition deque_append (maxlen : nat) (h : list Q) (x : Q) : list Q :=
  let h' := h ++ [x] in drop (length h' - maxlen) h'.

(** Lines 81-88: the debounced blink counter on one EAR measurement. *)
Definition blink_step (bc_c : Z * Z) (ear : Q) : Z * Z :=
  let '(bc, c) := bc_c in
  if Qltb ear EAR_THRESHOLD then (bc, c + 1)
  else if CONSEC_FRAMES <=? c then (bc + 1, 0)
  else (bc, 0).

(** One iteration of the [while] body after a successful [cap.read()]. *)
Definition frame_step (frame_interval : Z) (st : loop_state) (fr : option Q)
  : outcome loop_state :=
  let fc := frame_count st + 1 in
  if frame_interval =? 0 then Raises "integer modulo by zero"
  else if negb (fc mod frame_interval =? 0) then
    Returns {| blink_count := blink_count st; counter := counter st;
               frame_count := fc; processed_frames := processed_frames st;
               ear_history := ear_history st;
               debug_frames_saved := debug_frames_saved st |}
  else
    match fr with
    | None =>
        Returns {| blink_count := blink_count st; counter := counter st;
                   frame_count := fc;
                   processed_frames := processed_frames st + 1;
                   ear_history := ear_history st;
                   debug_frames_saved := debug_frames_saved st |}
    | Some ear =>
        let '(bc, c) := blink_step (blink_count st, counter st) ear in
        Returns {| blink_count := bc; counter := c;
                   frame_count := fc;
                   processed_frames := processed_frames st + 1;
                   ear_history := deque_append 5 (ear_history st) ear;
                   debug_frames_saved := debug_frames_saved st + 1 |}
    end.

(** The [while cap.isOpened() and processed_frames < max_frames] loop; the
    list runs out when [cap.read()] returns [ret = False]. *)
Fixpoint loop (max_frames frame_interval : Z) (fs : list (option Q))
  (st : loop_state) : outcome loop_state :=
  match fs with
  | [] => Returns st
  | fr :: fs' =>
      if processed_frames st <? max_frames then
        st' ← frame_step frame_interval st fr;
        loop max_frames frame_interval fs' st'
      else Returns st
  end.

Section Analyze.
(** [np.sqrt], as used by [np.std]. *)
Variable sqrt : Q -> Q.

Definition np_std (l : list Q) : Q := sqrt (var l).

(** Lines 118-137: the suspicion heuristic. *)
Definition heuristic (blink_rate_per_minute std_ear avg_ear : Q)
  : bool * list string :=
  let '(s1, r1) :=
    if Qltb blink_rate_per_minute 5 then (true, ["low_blink_rate"%string])
    else if Qltb 50 blink_rate_per_minute then (true, ["high_blink_rate"%string])
    else (false, []) in
  let '(s2, r2) :=
    if Qltb std_ear 0.008 then (true, r1 ++ ["low_ear_variance"%string])
    else (s1, r1) in
  if Qltb avg_ear 0.12 || Qltb 0.38 avg_ear
  then (true, r2 ++ ["abnormal_ear"%string])
  else (s2, r2).

Definition analyze_blink (v : video) (max_frames frame_interval : Z)
  : outcome (gmap string pyval) :=
  if negb (opened v) then
    Returns (<["success" := PBool false]>
             (<["reason" := PStr "cannot_open_video"]> ∅))
  else
    st ← loop max_frames frame_interval (frames v) init_state;
    match ear_history st with
    | [] =>
        Returns (<["success" := PBool false]>
                 (<["reason" := PStr "no_faces_detected"]> ∅))
    | _ =>
        let avg_ear := mean (ear_history st) in
        let std_ear := np_std (ear_history st) in
        let fps := 30%Q in
        let duration_seconds :=
          (inject_Z (processed_frames st * frame_interval) / fps)%Q in
        let blink_rate_per_minute :=
          if Qltb 0 duration_seconds
          then ((inject_Z (blink_count st) / duration_seconds) * 60)%Q
          else 0%Q in
        let '(suspicious, reasons) :=
          heuristic blink_rate_per_minute std_ear avg_ear in
        Returns
          (<["success" := PBool true]>
           (<["blink_count" := PInt (blink_count st)]>
           (<["blink_rate_per_minute" := PFloat blink_rate_per_minute]>
           (<["avg_ear" := PFloat avg_ear]>
           (<["std_ear" := PFloat std_ear]>
           (<["processed_frames" := PInt (processed_frames st)]>
           (<["debug_frames_saved" := PInt (debug_frames_saved st)]>
           (<["suspicious" := PBool suspicious]>
           (<["reasons" := PList (map PStr reasons)]> ∅)))))))))
    end.
End Analyze.

(** The detector with its default arguments [max_frames=100, frame_interval=3]. *)
Definition analyze_blink_default (sqrt : Q -> Q) (v : video) :=
  analyze_blink sqrt v 100 3.

End BlinkDetector.

(** ** level-3-headpose/headpose_detector.py *)

Module HeadposeDetector.

(** A normalised landmark of the face mesh. *)
Record landmark : Type := { x : Q; y : Q }.

(** The three landmarks the detector reads: indices 1, 33 and 263. *)
Record face : Type := { nose : landmark; left_eye : landmark; right_eye : landmark }.

(** Whether the capture opened, and per decoded frame the detected face, if any. *)
Record video : Type := { opened : bool; frames : list (option face) }.

(** A numpy float: a number, or [nan] (the mean or variance of an empty array). *)
Inductive npfloat : Type := Fin (q : Q) | NaN.

Definition np_mean (l : list Q) : npfloat :=
  match l with [] => NaN | _ => Fin (mean l) end.

Definition np_var (l : list Q) : npfloat :=
  match l with [] => NaN | _ => Fin (var l) end.

(** Comparisons with [nan] are false. *)
Definition np_lt (a : npfloat) (b : Q) : bool :=
  match a with Fin q => Qltb q b | NaN => false end.

Definition np_gt (a : npfloat) (b : Q) : bool :=
  match a with Fin q => Qltb b q | NaN => false end.

Definition to_py (a : npfloat) : pyval :=
  match a with Fin q => PFloat q | NaN => PNaN end.

Record loop_state : Type := {
  pitch_vals : list Q;
  yaw_vals : list Q;
  roll_vals : list Q;
  debug_frame_id : Z;
  total_frames : Z
}.

Definition init_state : loop_state :=
  {| pitch_vals := []; yaw_vals := []; roll_vals := [];
     debug_frame_id := 0; total_frames := 0 |}.

(** [np.diff(movements, axis=0)]: differences of consecutive rows. *)
Fixpoint np_diff (rows : list (Q * Q * Q)) : list (Q * Q * Q) :=
  match rows with
  | [] => []
  | r :: rest =>
      match rest with
      | [] => []
      | r' :: _ =>
          let '(p, w, r0) := r in
          let '(p', w', r0') := r' in
          ((p' - p)%Q, (w' - w)%Q, (r0' - r0)%Q) :: np_diff rest
      end
  end.

(** [np.stack([pitch, yaw, roll], axis=1)] on three arrays of one length. *)
Fixpoint np_stack (ps ws rs : list Q) : list (Q * Q * Q) :=
  match ps, ws, rs with
  | p :: ps', w :: ws', r :: rs' => (p, w, r) :: np_stack ps' ws' rs'
  | _, _, _ => []
  end.

Section Analyze.
(** [np.arctan2] and [np.sqrt]. *)
Variable arctan2 : Q -> Q -> Q.
Variable sqrt : Q -> Q.

(** [np.linalg.norm] of one row. *)
Definition norm3 (v : Q * Q * Q) : Q :=
  let '(a, b, c) := v in sqrt (a * a + b * b + c * c)%Q.

(** One iteration of the [while True] body after a successful [cap.read()]. *)
Definition frame_step (save_debug : bool) (max_debug_frames : Z)
  (st : loop_state) (fr : option face) : loop_state :=
  let tf := total_frames st + 1 in
  match fr with
  | None =>
      {| pitch_vals := pitch_vals st; yaw_vals := yaw_vals st;
         roll_vals := roll_vals st; debug_frame_id := debug_frame_id st;
         total_frames := tf |}
  | Some f =>
      let dx := (x (right_eye f) - x (left_eye f))%Q in
      let dy := (y (right_eye f) - y (left_eye f))%Q in
      let roll := arctan2 dy dx in
      let yaw := (x (nose f) - 0.5)%Q in
      let pitch := (y (nose f) - 0.5)%Q in
      {| pitch_vals := pitch_vals st ++ [pitch];
         yaw_vals := yaw_vals st ++ [yaw];
         roll_vals := roll_vals st ++ [roll];
         debug_frame_id :=
           if save_debug && (debug_frame_id st <? max_debug_frames)
           then debug_frame_id st + 1 else debug_frame_id st;
         total_frames := tf |}
  end.

Definition loop (save_debug : bool) (max_debug_frames : Z)
  (fs : list (option face)) : loop_state :=
  foldl (frame_step save_debug max_debug_frames) init_state fs.

(** Lines 150-159: the two independent [if]s of the heuristic. *)
Definition heuristic (speed_variance : npfloat) : bool * list string :=
  let '(s1, r1) :=
    if np_lt speed_variance 0.000001 then (true, ["too_smooth_motion"%string])
    else (false, []) in
  if np_gt speed_variance 0.01 then (true, r1 ++ ["jittery_motion"%string])
  else (s1, r1).

Definition analyze_headpose (v : video) (save_debug : bool) (max_debug_frames : Z)
  : gmap string pyval :=
  if negb (opened v) then
    <["success" := PBool false]> (<["reason" := PStr "cannot_open_video"]> ∅)
  else
    let st := loop save_debug max_debug_frames (frames v) in
    match pitch_vals st with
    | [] =>
        <["success" := PBool false]> (<["reason" := PStr "no_face_detected"]> ∅)
    | _ =>
        let pitch := pitch_vals st in
        let yaw := yaw_vals st in
        let roll := roll_vals st in
        let movements := np_stack pitch yaw roll in
        let diff := np_diff movements in
        let speed := map norm3 diff in
        let speed_variance := np_var speed in
        let avg_speed := np_mean speed in
        let pose_variance := (var pitch + var yaw + var roll)%Q in
        let '(suspicious, reasons) := heuristic speed_variance in
        <["success" := PBool true]>
        (<["frames_analyzed" := PInt (Z.of_nat (length (pitch_vals st)))]>
        (<["total_video_frames" := PInt (total_frames st)]>
        (<["avg_pitch" := PFloat (mean pitch)]>
        (<["avg_yaw" := PFloat (mean yaw)]>
        (<["avg_roll" := PFloat (mean roll)]>
        (<["pose_variance" := PFloat pose_variance]>
        (<["avg_speed" := to_py avg_speed]>
        (<["speed_variance" := to_py speed_variance]>
        (<["debug_frames_saved" := PInt (debug_frame_id st)]>
        (<["suspicious" := PBool suspicious]>
        (<["reasons" := PList (map PStr reasons)]> ∅)))))))))))
    end.
End Analyze.

End HeadposeDetector.

(** ** level-4-texture/texture_detector.py *)

Module TextureDetector.

Definition FRAME_SKIP : Z := 5.
Definition THRESHOLD : Q := 0.5.

(** Per decoded frame: the classifier's scores for the faces the cascade found
    in it, in detection order, or the exception raised while handling the
    frame.  A capture that cannot be opened decodes no frame. *)
Definition video : Type := list (outcome (list Q)).

(** The [while True] loop: every [FRAME_SKIP]-th frame is scored. *)
Fixpoint loop (fs : video) (frame_id : Z) (scores : list Q) : outcome (list Q) :=
  match fs with
  | [] => Returns scores
  | fr :: fs' =>
      if frame_id mod FRAME_SKIP =? 0 then
        preds ← fr;
        loop fs' (frame_id + 1) (scores ++ preds)
      else loop fs' (frame_id + 1) scores
  end.

(** [np.mean(scores > THRESHOLD)] on a non-empty array. *)
Definition fake_ratio_of (scores : list Q) : Q :=
  (inject_Z (Z.of_nat (length (filter (fun s => Qltb THRESHOLD s = true) scores)))
   / inject_Z (Z.of_nat (length scores)))%Q.

(** The template dictionary of lines 29-36. *)
Definition template (video_path : string) : gmap string pyval :=
  <["success" := PBool false]>
  (<["video_path" := PStr video_path]>
  (<["frames_analyzed" := PInt 0]>
  (<["fake_ratio" := PInt 0]>
  (<["avg_score" := PInt 0]>
  (<["frame_scores" := PList []]> ∅))))).

Definition analyze_texture (video_path : string) (v : video) : gmap string pyval :=
  let result := template video_path in
  match loop v 0 [] with
  | Raises e => <["reason" := PStr e]> result
  | Returns scores =>
      match scores with
      | [] => <["reason" := PStr "no_faces_detected"]> result
      | _ =>
          let avg_score := mean scores in
          let fake_ratio := fake_ratio_of scores in
          <["frame_scores" := PList (map PFloat scores)]>
          (<["avg_score" := PFloat avg_score]>
          (<["fake_ratio" := PFloat fake_ratio]>
          (<["frames_analyzed" := PInt (Z.of_nat (length scores))]>
          (<["success" := PBool true]> result))))
      end
  end.

End TextureDetector.

(** ** The code shared, copy for copy, by the four [evaluate_*.py] scripts *)

Module Evaluator.

Inductive label : Type := FAKE | REAL.

Definition label_eqb (a b : label) : bool :=
  match a, b with
  | FAKE, FAKE | REAL, REAL => true
  | _, _ => false
  end.

(** The dictionary [analyze_video] builds.  [detector_result] is the entry
    under the family's own key (["blink"], ["headpose"], ["texture"],
    ["emotion"]); [error] is present only after a failure. *)
Record verdict : Type := {
  video_path : string;
  detector_result : option (gmap string pyval);
  prediction : option label;
  confidence : pyval;
  error : option pyval
}.

Definition fresh (path : string) : verdict :=
  {| video_path := path; detector_result := None; prediction := None;
     confidence := PInt 0; error := None |}.

Definition set_detector_result (d : gmap string pyval) (r : verdict) : verdict :=
  {| video_path := video_path r; detector_result := Some d;
     prediction := prediction r; confidence := confidence r; error := error r |}.

Definition set_prediction (p : label) (c : pyval) (r : verdict) : verdict :=
  {| video_path := video_path r; detector_result := detector_result r;
     prediction := Some p; confidence := c; error := error r |}.

Definition set_error (e : pyval) (r : verdict) : verdict :=
  {| video_path := video_path r; detector_result := detector_result r;
     prediction := prediction r; confidence := confidence r; error := Some e |}.

(** The verdict after [r["ground_truth"] = ...]. *)
Record labeled : Type := { verdict_of : verdict; ground_truth : label }.

(** *** Collecting the videos of a dataset directory *)

Definition video_extensions : list string :=
  [".mp4"; ".avi"; ".mov"; ".mkv"; ".flv"]%string.

(** [str.lower] on the ASCII letters. *)
Definition lower_ascii (c : ascii) : ascii :=
  let n := nat_of_ascii c in
  if ((65 <=? n) && (n <=? 90))%nat then ascii_of_nat (n + 32) else c.

Fixpoint lower (s : string) : string :=
  match s with
  | EmptyString => EmptyString
  | String c s' => String (lower_ascii c) (lower s')
  end.

Definition endswith (s ext : string) : bool :=
  let ls := String.length s in
  let le := String.length ext in
  (le <=? ls)%nat && String.eqb (substring (ls - le) le s) ext.

Definition is_video (f : string) : bool :=
  existsb (fun ext => endswith (lower f) ext) video_extensions.

(** What a dataset path is on disk: [os.path.exists] is false for [Missing];
    [os.listdir] raises on [NotADirectory] and lists a [Directory]. *)
Inductive path_state : Type :=
| Missing
| NotADirectory
| Directory (entries : list string).

(** The environment of one evaluation run. *)
Record world : Type := {
  disk : string -> path_state;
  os_path_join : string -> string -> string;
  now : string
}.

Definition sorted (l : list string) : list string := merge_sort String.le l.

Definition collect_videos (w : world) (folder : string) : outcome (list string) :=
  match disk w folder with
  | Missing => Returns []
  | NotADirectory => Raises "NotADirectoryError"
  | Directory entries =>
      Returns (map (os_path_join w folder)
                 (filter (fun f => is_video f = true) (sorted entries)))
  end.

(** One batch loop: analyse, label, append. *)
Definition batch (analyze_video : string -> verdict) (gt : label)
  (videos : list string) : list labeled :=
  map (fun p => {| verdict_of := analyze_video p; ground_truth := gt |}) videos.

(** *** Metrics with a confusion matrix (emotion and texture) *)

Record counts : Type := { tp : Z; tn : Z; fp : Z; fn : Z; correct : Z }.

Definition zero_counts : counts := {| tp := 0; tn := 0; fp := 0; fn := 0; correct := 0 |}.

(** The body of [for r in all_results]. *)
Definition count_step (c : counts) (r : labeled) : counts :=
  match prediction (verdict_of r) with
  | None => c
  | Some pred =>
      let gt := ground_truth r in
      let correct' := if label_eqb pred gt then correct c + 1 else correct c in
      match gt, pred with
      | FAKE, FAKE =>
          {| tp := tp c + 1; tn := tn c; fp := fp c; fn := fn c; correct := correct' |}
      | REAL, REAL =>
          {| tp := tp c; tn := tn c + 1; fp := fp c; fn := fn c; correct := correct' |}
      | REAL, FAKE =>
          {| tp := tp c; tn := tn c; fp := fp c + 1; fn := fn c; correct := correct' |}
      | FAKE, REAL =>
          {| tp := tp c; tn := tn c; fp := fp c; fn := fn c + 1; correct := correct' |}
      end
  end.

Definition count_all (all_results : list labeled) : counts :=
  foldl count_step zero_counts all_results.

Record full_summary : Type := {
  accuracy : Q;
  precision : Q;
  recall : Q;
  f1_score : Q;
  confusion_matrix : counts
}.

Definition full_metrics (all_results : list labeled) : full_summary :=
  let c := count_all all_results in
  let total_valid := tp c + tn c + fp c + fn c in
  let acc :=
    if negb (total_valid =? 0)
    then (inject_Z (correct c) / inject_Z total_valid * 100)%Q else 0%Q in
  let precision :=
    if negb (tp c + fp c =? 0)
    then (inject_Z (tp c) / inject_Z (tp c + fp c) * 100)%Q else 0%Q in
  let recall :=
    if negb (tp c + fn c =? 0)
    then (inject_Z (tp c) / inject_Z (tp c + fn c) * 100)%Q else 0%Q in
  let f1 :=
    if negb (Qeq_bool (precision + recall) 0)
    then (2 * precision * recall / (precision + recall))%Q else 0%Q in
  {| accuracy := acc; precision := precision; recall := recall; f1_score := f1;
     confusion_matrix := c |}.

(** *** Metrics without a confusion matrix (blink and headpose) *)

Record simple_summary : Type := { total_videos : Z; simple_accuracy : Q }.

Definition is_correct (r : labeled) : bool :=
  match prediction (verdict_of r) with
  | Some p => label_eqb p (ground_truth r)
  | None => false
  end.

Definition simple_metrics (all_results : list labeled) : simple_summary :=
  let correct := Z.of_nat (length (filter (fun r => is_correct r = true) all_results)) in
  let total := Z.of_nat (length all_results) in
  let accuracy :=
    if 0 <? total then (inject_Z correct / inject_Z total * 100)%Q else 0%Q in
  {| total_videos := total; simple_accuracy := accuracy |}.

(** *** The persisted report and the effect of a run *)

Record report (S : Type) : Type := {
  timestamp : string;
  summary : S;
  results : list labeled
}.
Arguments timestamp {S} r.
Arguments summary {S} r.
Arguments results {S} r.

(** What [process_dataset] did: the value it returned ([None] for a bare
    [return]) and the file it wrote, if any. *)
Record run (S : Type) : Type := {
  returned : option (list labeled);
  written : option (string * report S)
}.
Arguments returned {S} r.
Arguments written {S} r.

End Evaluator.

(** ** level-2-blink/evaluate_blink.py *)

Module EvaluateBlink.
Import Evaluator.

(** The [try] block of [analyze_video], on what the call of [analyze_blink] did. *)
Definition decision (path : string) (det : outcome (gmap string pyval)) : verdict :=
  let results := fresh path in
  match det with
  | Raises e => set_error (PStr e) results
  | Returns blink_result =>
      match getitem blink_result "success" with
      | Raises e => set_error (PStr e) results
      | Returns ok =>
          if truthy ok then
            let results := set_detector_result blink_result results in
            match getitem blink_result "suspicious" with
            | Raises e => set_error (PStr e) results
            | Returns s =>
                if truthy s then set_prediction FAKE (PFloat 0.8) results
                else set_prediction REAL (PFloat 0.9) results
            end
          else results
      end
  end.

Section Run.
Variable sqrt : Q -> Q.
(** The video file behind a path, as the blink detector sees it. *)
Variable video_at : string -> BlinkDetector.video.

Definition analyze_video (path : string) : verdict :=
  decision path (BlinkDetector.analyze_blink sqrt (video_at path) 100 3).

Definition process_dataset (w : world) (fake_dir real_dir output_file : string)
  : outcome (run simple_summary) :=
  fake_videos ← collect_videos w fake_dir;
  real_videos ← collect_videos w real_dir;
  let total_videos := (length fake_videos + length real_videos)%nat in
  if (total_videos =? 0)%nat then Returns {| returned := None; written := None |}
  else
    let all_results :=
      batch analyze_video FAKE fake_videos ++ batch analyze_video REAL real_videos in
    let output_data :=
      {| timestamp := now w; summary := simple_metrics all_results;
         results := all_results |} in
    Returns {| returned := Some all_results;
               written := Some (output_file, output_data) |}.

Definition output_file_main : string := "blink_results.json".

(** The [__main__] block. *)
Definition main (w : world) : outcome (run simple_summary) :=
  process_dataset w "fake" "real" output_file_main.
End Run.

End EvaluateBlink.

(** ** level-3-headpose/evaluate_headpose.py *)

Module EvaluateHeadpose.
Import Evaluator.

Definition decision (path : string) (det : outcome (gmap string pyval)) : verdict :=
  let results := fresh path in
  match det with
  | Raises e => set_error (PStr e) results
  | Returns hp_result =>
      match getitem hp_result "success" with
      | Raises e => set_error (PStr e) results
      | Returns ok =>
          if truthy ok then
            let results := set_detector_result hp_result results in
            match getitem hp_result "suspicious" with
            | Raises e => set_error (PStr e) results
            | Returns s =>
                if truthy s then set_prediction FAKE (PFloat 0.8) results
                else set_prediction REAL (PFloat 0.9) results
            end
          else results
      end
  end.

Section Run.
Variable arctan2 : Q -> Q -> Q.
Variable sqrt : Q -> Q.
Variable video_at : string -> HeadposeDetector.video.

Definition analyze_video (path : string) : verdict :=
  decision path
    (Returns (HeadposeDetector.analyze_headpose arctan2 sqrt (video_at path) true 100)).

Definition process_dataset (w : world) (fake_dir real_dir output_file : string)
  : outcome (run simple_summary) :=
  fake_videos ← collect_videos w fake_dir;
  real_videos ← collect_videos w real_dir;
  let total_videos := (length fake_videos + length real_videos)%nat in
  if (total_videos =? 0)%nat then Returns {| returned := None; written := None |}
  else
    let all_results :=
      batch analyze_video FAKE fake_videos ++ batch analyze_video REAL real_videos in
    let output_data :=
      {| timestamp := now w; summary := simple_metrics all_results;
         results := all_results |} in
    Returns {| returned := Some all_results;
               written := Some (output_file, output_data) |}.

Definition output_file_main : string := "headpose_results.json".

Definition main (w : world) : outcome (run simple_summary) :=
  process_dataset w "fake" "real" output_file_main.
End Run.

End EvaluateHeadpose.

(** ** level-1-emotion/evaluate_emotion.py *)

Module EvaluateEmotion.
Import Evaluator.

(** [d.get("reason", default)]. *)
Definition get_reason (d : gmap string pyval) (default : string) : pyval :=
  match d !! "reason" with
  | Some v => v
  | None => PStr default
  end.

Definition decision (path : string) (det : outcome (gmap string pyval)) : verdict :=
  let result := fresh path in
  match det with
  | Raises e => set_error (PStr e) result
  | Returns emotion_result =>
      match getitem emotion_result "success" with
      | Raises e => set_error (PStr e) result
      | Returns ok =>
          if negb (truthy ok) then
            set_error (get_reason emotion_result "emotion_failed") result
          else
            let result := set_detector_result emotion_result result in
            match getitem emotion_result "suspicious" with
            | Raises e => set_error (PStr e) result
            | Returns s =>
                if truthy s then set_prediction FAKE (PFloat 0.85) result
                else set_prediction REAL (PFloat 0.80) result
            end
      end
  end.

Section Run.
(** [emotion_detector.analyze_emotion], which is not part of these sources:
    any function from the video path to a dictionary or an exception. *)
Variable analyze_emotion : string -> outcome (gmap string pyval).

Definition analyze_video (path : string) : verdict :=
  decision path (analyze_emotion path).

Definition process_dataset (w : world) (fake_dir real_dir output_file : string)
  : outcome (run full_summary) :=
  fake_videos ← collect_videos w fake_dir;
  real_videos ← collect_videos w real_dir;
  let total := (length fake_videos + length real_videos)%nat in
  if (total =? 0)%nat then Returns {| returned := None; written := None |}
  else
    let all_results :=
      batch analyze_video FAKE fake_videos ++ batch analyze_video REAL real_videos in
    let output :=
      {| timestamp := now w; summary := full_metrics all_results;
         results := all_results |} in
    Returns {| returned := Some all_results; written := Some (output_file, output) |}.

Definition output_file_main : string := "emotion_evaluation.json".

Definition main (w : world) : outcome (run full_summary) :=
  process_dataset w "fake" "real" output_file_main.
End Run.

End EvaluateEmotion.

(** ** level-4-texture/evaluate_texture.py *)

Module EvaluateTexture.
Import Evaluator.

(** [v < c] for a float literal [c]: false on [nan], [TypeError] off the numbers. *)
Definition lt_float (v : pyval) (c : Q) : outcome bool :=
  match v with
  | PNaN => Returns false
  | _ =>
      match as_number v with
      | Some q => Returns (Qltb q c)
      | None => Raises "TypeError"
      end
  end.

(** [1 - v]. *)
Definition one_minus (v : pyval) : outcome pyval :=
  match v with
  | PInt n => Returns (PInt (1 - n))
  | PBool b => Returns (PInt (1 - Z.b2z b))
  | PFloat q => Returns (PFloat (1 - q))
  | PNaN => Returns PNaN
  | _ => Raises "TypeError"
  end.

Definition get_reason (d : gmap string pyval) (default : string) : pyval :=
  match d !! "reason" with
  | Some v => v
  | None => PStr default
  end.

Definition decision (path : string) (det : outcome (gmap string pyval)) : verdict :=
  let result := fresh path in
  match det with
  | Raises e => set_error (PStr e) result
  | Returns tex =>
      match getitem tex "success" with
      | Raises e => set_error (PStr e) result
      | Returns ok =>
          if negb (truthy ok) then
            set_error (get_reason tex "texture_failed") result
          else
            let result := set_detector_result tex result in
            match getitem tex "avg_score" with
            | Raises e => set_error (PStr e) result
            | Returns avg =>
                match lt_float avg 0.8 with
                | Raises e => set_error (PStr e) result
                | Returns true => set_prediction FAKE avg result
                | Returns false =>
                    let result := set_prediction REAL (confidence result) result in
                    match one_minus avg with
                    | Raises e => set_error (PStr e) result
                    | Returns c => set_prediction REAL c result
                    end
                end
            end
      end
  end.

Section Run.
Variable video_at : string -> TextureDetector.video.

Definition analyze_video (path : string) : verdict :=
  decision path (Returns (TextureDetector.analyze_texture path (video_at path))).

(** No early return here: the report is written for an empty dataset too. *)
Definition process_dataset (w : world) (fake_dir real_dir output_file : string)
  : outcome (run full_summary) :=
  fake_videos ← collect_videos w fake_dir;
  real_videos ← collect_videos w real_dir;
  let all_results :=
    batch analyze_video FAKE fake_videos ++ batch analyze_video REAL real_videos in
  let output :=
    {| timestamp := now w; summary := full_metrics all_results;
       results := all_results |} in
  Returns {| returned := Some all_results; written := Some (output_file, output) |}.

Definition output_file_main : string := "texture_evaluation.json".

Definition main (w : world) : outcome (run full_summary) :=
  process_dataset w "fake" "real" output_file_main.
End Run.

End EvaluateTexture.

(** ** orchestrator.py *)

Module Orchestrator.

(** A parsed JSON document; Python's [None] is [JNull]. *)
#[warnings="-register-all"] Inductive json : Type :=
| JNull
| JBool (b : bool)
| JNum (q : Q)
| JStr (s : string)
| JArr (l : list json)
| JObj (l : list (string * json)).

Definition PY_GLOBAL : string := "python".
Definition PY_VENV : string := "venv\Scripts\python.exe".

(** The [SCRIPTS] dictionary, in its insertion order. *)
Definition SCRIPTS : list (string * (string * string)) :=
  [("emotion", (PY_GLOBAL, "evaluate_emotion.py"));
   ("blink", (PY_VENV, "evaluate_blink.py"));
   ("headpose", (PY_VENV, "evaluate_headpose.py"));
   ("texture", (PY_VENV, "evaluate_texture.py"))]%string.

(** What [subprocess.run] did: the child ran to an exit status, or the call
    itself raised (for instance the interpreter was not found). *)
Inductive completed : Type :=
| Completed (returncode : Z) (stdout stderr : string)
| SpawnError (e : string).

(** The environment of one orchestrator run: the child processes, the JSON
    parser ([None] is [JSONDecodeError]) and the JSON files that can be opened
    and parsed when a task reads them. *)
Record env : Type := {
  subprocess_run : string -> string -> completed;
  json_loads : string -> option json;
  json_file : string -> option json
}.

(** The file name of the fallback branch. *)
Definition fallback_filename (name : string) : string :=
  if String.eqb name "emotion" then "emotion_evaluation.json"
  else name ++ "_evaluation.json".

Definition run_detector (e : env) (name python_exec script : string)
  : outcome (string * json) :=
  match subprocess_run e python_exec script with
  | SpawnError err => Raises err
  | Completed returncode stdout stderr =>
      if negb (returncode =? 0) then Returns (name, JNull)
      else
        match json_loads e stdout with
        | Some doc => Returns (name, doc)
        | None =>
            match json_file e (fallback_filename name) with
            | Some doc => Returns (name, doc)
            | None => Returns (name, JNull)
            end
        end
  end.

(** [results[name] = res] on a dictionary kept in insertion order. *)
Fixpoint dict_set (d : list (string * json)) (k : string) (v : json)
  : list (string * json) :=
  match d with
  | [] => [(k, v)]
  | (k', v') :: d' =>
      if String.eqb k' k then (k', v) :: d' else (k', v') :: dict_set d' k v
  end.

(** The thread pool.  The futures are numbered in submission order;
    [schedule] lists the futures in the order in which their tasks finish.
    [wait i done schedule] is [futures[i].result()] blocking: it lets tasks
    finish until future [i] is among the finished ones, and is [None] when
    that never happens. *)
Fixpoint wait (i : nat) (done schedule : list nat) : option (list nat * list nat) :=
  if bool_decide (i ∈ done) then Some (done, schedule)
  else
    match schedule with
    | [] => None
    | j :: rest => wait i (j :: done) rest
    end.

Inductive main_result : Type :=
| Printed (results : list (string * json))
| Uncaught (e : string)
| Blocked.

(** The [for f in futures] loop of [main]. *)
Fixpoint collect (e : env) (futures : list (nat * (string * (string * string))))
  (done schedule : list nat) (results : list (string * json)) : main_result :=
  match futures with
  | [] => Printed results
  | (i, (name, (py, scr))) :: rest =>
      match wait i done schedule with
      | None => Blocked
      | Some (done', schedule') =>
          match run_detector e name py scr with
          | Raises err => Uncaught err
          | Returns (name', res) =>
              collect e rest done' schedule' (dict_set results name' res)
          end
      end
  end.

Definition main (e : env) (schedule : list nat) : main_result :=
  collect e (imap (fun i t => (i, t)) SCRIPTS) [] schedule [].

End Orchestrator.

(** * Vocabulary of the properties *)

(** ** The debounced blink counter *)

(** The detector's counter pair after a sequence of EAR measurements. *)
Definition blinks_after (ears : list Q) : Z * Z :=
  foldl BlinkDetector.blink_step (0, 0) ears.

(** Length of the run of below-threshold measurements at the front of a list. *)
Fixpoint closed_prefix (l : list Q) : nat :=
  match l with
  | [] => 0
  | e :: l' => if Qltb e BlinkDetector.EAR_THRESHOLD then S (closed_prefix l') else 0
  end.

(** Length of the run of consecutive below-threshold measurements that ends
    the sequence. *)
Definition closed_run (ears : list Q) : nat := closed_prefix (rev ears).

(** ** Verdicts *)

(** The value is the float [q] (up to the equality of rationals). *)
Definition is_float (v : pyval) (q : Q) : Prop :=
  exists c, v = PFloat c /\ (c == q)%Q.

(** A verdict that carries the detector's dictionary, a prediction and a
    confidence, and no error. *)
Definition decided (r : Evaluator.verdict) (d : gmap string pyval)
  (p : Evaluator.label) (c : Q) : Prop :=
  Evaluator.detector_result r = Some d /\
  Evaluator.prediction r = Some p /\
  is_float (Evaluator.confidence r) c /\
  Evaluator.error r = None.

(** ** Counting verdicts *)

(** Number of verdicts of a batch that satisfy [f]. *)
Definition tally (f : Evaluator.labeled -> bool) (l : list Evaluator.labeled) : Z :=
  Z.of_nat (length (filter (fun r => f r = true) l)).

(** The verdict has ground truth [gt] and prediction [p]. *)
Definition hits (gt p : Evaluator.label) (r : Evaluator.labeled) : bool :=
  Evaluator.label_eqb (Evaluator.ground_truth r) gt &&
  match Evaluator.prediction (Evaluator.verdict_of r) with
  | Some q => Evaluator.label_eqb q p
  | None => false
  end.

Definition has_prediction (r : Evaluator.labeled) : bool :=
  match Evaluator.prediction (Evaluator.verdict_of r) with
  | Some _ => true
  | None => false
  end.

(** The sum of the four cells of a confusion matrix. *)
Definition cells (c : Evaluator.counts) : Z :=
  Evaluator.tp c + Evaluator.tn c + Evaluator.fp c + Evaluator.fn c.

(** ** Running the model on concrete videos *)

Fixpoint newton (n : nat) (a x : Q) : Q :=
  match n with
  | O => x
  | S n' => newton n' a (Qred ((x + a / x) / 2))
  end.

(** A rational stand-in for [np.sqrt]: a few Newton steps. *)
Definition approx_sqrt (a : Q) : Q :=
  if Qle_bool a 0 then 0%Q else newton 6 a 1.

(** [n / d × 100], and 0 when the denominator is 0. *)
Definition percent (n d : Z) : Q :=
  if d =? 0 then 0%Q else (inject_Z n / inject_Z d * 100)%Q.

(** A batch of two FAKE videos for the blink evaluator: the first opens and
    shows no blink (of its three frames the third is sampled), the second
    cannot be opened. *)
Definition two_fake_videos : list Evaluator.labeled :=
  let still :=
    {| BlinkDetector.opened := true;
       BlinkDetector.frames := [Some 0.30; Some 0.31; Some 0.30]%Q |} in
  let broken := {| BlinkDetector.opened := false; BlinkDetector.frames := [] |} in
  let video_at (p : string) := if String.eqb p "fake/a.mp4" then still else broken in
  Evaluator.batch (EvaluateBlink.analyze_video approx_sqrt video_at) Evaluator.FAKE
    ["fake/a.mp4"; "fake/b.mp4"]%string.

(** ** Texture analysis *)

(** The number stored under a key of a result dictionary. *)
Definition number_at (d : gmap string pyval) (k : string) : option Q :=
  d !! k ≫= as_number.

(** Number of scores strictly above [THRESHOLD]. *)
Definition above_threshold (scores : list Q) : nat :=
  length (filter (fun s => Qltb TextureDetector.THRESHOLD s = true) scores).

(** ** A result dictionary read as a DetectorResult *)

Definition is_number (v : pyval) : bool :=
  match v with
  | PInt _ | PFloat _ | PNaN => true
  | _ => false
  end.

(** [success]: the entry's truth value, false when the key is absent. *)
Definition dr_success (d : gmap string pyval) : bool :=
  match d !! "success" with Some v => truthy v | None => false end.

(** [metrics]: the numeric entries of the dictionary. *)
Definition dr_metrics (d : gmap string pyval) : gmap string pyval :=
  filter (fun kv => is_number kv.2 = true) d.

(** [suspicious]: false when the key is absent. *)
Definition dr_suspicious (d : gmap string pyval) : bool :=
  match d !! "suspicious" with Some v => truthy v | None => false end.

(** [reasons]: empty when the key is absent. *)
Definition dr_reasons (d : gmap string pyval) : list pyval :=
  match d !! "reasons" with Some (PList l) => l | _ => [] end.

(** The invariant of the data model. *)
Definition detector_invariant (d : gmap string pyval) : Prop :=
  (dr_success d = false -> dr_metrics d = ∅ /\ dr_suspicious d = false) /\
  (dr_reasons d <> [] <-> dr_suspicious d = true).

(** The metrics a failed texture analysis keeps from its template. *)
Definition zeroed_texture_metrics : gmap string pyval :=
  <["frames_analyzed" := PInt 0]>
  (<["fake_ratio" := PInt 0]> (<["avg_score" := PInt 0]> ∅)).

(** ** Dataset runs *)




(** A machine with three entries under [fake] and no [real] directory. *)
Definition one_dataset : Evaluator.world :=
  {| Evaluator.disk := fun p =>
       if String.eqb p "fake"
       then Evaluator.Directory ["b.MP4"; "notes.txt"; "a.mp4"]%string
       else Evaluator.Missing;
     Evaluator.os_path_join := fun d f => (d ++ "/" ++ f)%string;
     Evaluator.now := "2026-01-01T00:00:00" |}.

(** A blink video that cannot be opened. *)
Definition unopened : BlinkDetector.video :=
  {| BlinkDetector.opened := false; BlinkDetector.frames := [] |}.

(** ** Orchestrated tasks *)

(** The family's task failed: its process exited with a non-zero status, or
    its output could not be parsed and no fallback file could be read. *)
Definition task_fails (e : Orchestrator.env) (t : string * (string * string)) : Prop :=
  exists returncode stdout stderr,
    Orchestrator.subprocess_run e t.2.1 t.2.2 =
      Orchestrator.Completed returncode stdout stderr /\
    (returncode <> 0 \/
     (Orchestrator.json_loads e stdout = None /\
      Orchestrator.json_file e (Orchestrator.fallback_filename t.1) = None)).

(** The family's task succeeded with the document [doc]: parsed from its
    output, or else read from its fallback file. *)
Definition task_yields (e : Orchestrator.env) (t : string * (string * string))
  (doc : Orchestrator.json) : Prop :=
  exists stdout stderr,
    Orchestrator.subprocess_run e t.2.1 t.2.2 = Orchestrator.Completed 0 stdout stderr /\
    (Orchestrator.json_loads e stdout = Some doc \/
     (Orchestrator.json_loads e stdout = None /\
      Orchestrator.json_file e (Orchestrator.fallback_filename t.1) = Some doc)).

Definition is_null (j : Orchestrator.json) : bool :=
  match j with Orchestrator.JNull => true | _ => false end.

(** Number of [null] values, and of other values, in a combined report. *)
Definition nulls (results : list (string * Orchestrator.json)) : nat :=
  length (filter (fun kv => is_null kv.2 = true) results).

Definition populated (results : list (string * Orchestrator.json)) : nat :=
  length (filter (fun kv => is_null kv.2 = false) results).

(** The value a family's task leaves for the combined report. *)
Definition slot_of (e : Orchestrator.env) (t : string * (string * string))
  : Orchestrator.json :=
  match Orchestrator.run_detector e t.1 t.2.1 t.2.2 with
  | Returns (_, res) => res
  | Raises _ => Orchestrator.JNull
  end.

(** A run in which the blink task exits with status 1 and the three others
    print a document. *)
Definition blink_crashes : Orchestrator.env :=
  {| Orchestrator.subprocess_run := fun _ script =>
       if String.eqb script "evaluate_blink.py"
       then Orchestrator.Completed 1 EmptyString "Traceback"
       else Orchestrator.Completed 0 script EmptyString;
     Orchestrator.json_loads := fun s => Some (Orchestrator.JStr s);
     Orchestrator.json_file := fun _ => None |}.

(** A run in which every task prints text that is not JSON, and the only
    report files on disk are the ones the four evaluators write. *)
Definition reports_on_disk : Orchestrator.env :=
  {| Orchestrator.subprocess_run := fun _ _ =>
       Orchestrator.Completed 0 "=== DATASET PROCESSING ===" EmptyString;
     Orchestrator.json_loads := fun _ => None;
     Orchestrator.json_file := fun f =>
       if bool_decide (f ∈ [EvaluateEmotion.output_file_main;
                            EvaluateBlink.output_file_main;
                            EvaluateHeadpose.output_file_main;
                            EvaluateTexture.output_file_main])
       then Some (Orchestrator.JObj [("written_to"%string, Orchestrator.JStr f)])
       else None |}.


(** ** Further vocabulary: the blink loop *)

(** The last [n] entries of a list. *)
Definition last_n (n : nat) (l : list Q) : list Q := drop (length l - n) l.

(** The record fields of a loop state all start from these bounds. *)
Definition blink_counters_ok (max_frames frame_interval : Z) (frames_read : Z)
  (st : BlinkDetector.loop_state) : Prop :=
  0 <= BlinkDetector.processed_frames st <= Z.max 0 max_frames /\
  0 <= BlinkDetector.frame_count st <= frames_read /\
  0 <= BlinkDetector.debug_frames_saved st <= BlinkDetector.processed_frames st /\
  0 <= BlinkDetector.blink_count st /\
  0 <= BlinkDetector.counter st /\
  (BlinkDetector.CONSEC_FRAMES + 1) * BlinkDetector.blink_count st
    + BlinkDetector.counter st <= BlinkDetector.debug_frames_saved st /\
  (0 < frame_interval ->
   BlinkDetector.processed_frames st * frame_interval <= BlinkDetector.frame_count st) /\
  (length (BlinkDetector.ear_history st) <= 5)%nat /\
  (BlinkDetector.ear_history st = [] <-> BlinkDetector.debug_frames_saved st = 0).

(** The frames the blink loop looks at: those whose 1-based position, counted
    on from [frame_count], is a multiple of [frame_interval]. *)
Fixpoint sampled_from (frame_interval frame_count : Z) (frames : list (option Q))
  : list (option Q) :=
  match frames with
  | [] => []
  | fr :: rest =>
      if (frame_count + 1) mod frame_interval =? 0
      then fr :: sampled_from frame_interval (frame_count + 1) rest
      else sampled_from frame_interval (frame_count + 1) rest
  end.

(** The frames the blink loop processes: the first [max_frames] sampled ones. *)
Definition processed_by (max_frames frame_interval : Z) (frames : list (option Q))
  : list (option Q) :=
  take (Z.to_nat max_frames) (sampled_from frame_interval 0 frames).

(** The EAR measurements the blink loop takes. *)
Definition measured_by (max_frames frame_interval : Z) (frames : list (option Q))
  : list Q :=
  omap id (processed_by max_frames frame_interval frames).

(** The two failure dictionaries of the blink and headpose detectors. *)
Definition failure (reason : string) : gmap string pyval :=
  <["success" := PBool false]> (<["reason" := PStr reason]> ∅).

(** ** Further vocabulary: head pose *)

(** The faces found in a video, in frame order. *)
Definition faces_of (frames : list (option HeadposeDetector.face))
  : list HeadposeDetector.face := omap id frames.

Definition pitch_of (f : HeadposeDetector.face) : Q :=
  (HeadposeDetector.y (HeadposeDetector.nose f) - 0.5)%Q.

Definition yaw_of (f : HeadposeDetector.face) : Q :=
  (HeadposeDetector.x (HeadposeDetector.nose f) - 0.5)%Q.

Definition roll_of (arctan2 : Q -> Q -> Q) (f : HeadposeDetector.face) : Q :=
  arctan2
    (HeadposeDetector.y (HeadposeDetector.right_eye f)
     - HeadposeDetector.y (HeadposeDetector.left_eye f))%Q
    (HeadposeDetector.x (HeadposeDetector.right_eye f)
     - HeadposeDetector.x (HeadposeDetector.left_eye f))%Q.

(** Debug frames written for [n] faces. *)
Definition debug_frames_for (save_debug : bool) (max_debug_frames : Z) (n : nat) : Z :=
  if save_debug then Z.min (Z.of_nat n) (Z.max 0 max_debug_frames) else 0.

(** ** Further vocabulary: texture sampling *)

(** The frames the texture loop looks at: those whose 0-based index, counted
    on from [frame_id], is a multiple of [FRAME_SKIP]. *)
Fixpoint sampled_texture (frame_id : Z) (v : TextureDetector.video)
  : TextureDetector.video :=
  match v with
  | [] => []
  | fr :: rest =>
      if frame_id mod TextureDetector.FRAME_SKIP =? 0
      then fr :: sampled_texture (frame_id + 1) rest
      else sampled_texture (frame_id + 1) rest
  end.

(** The scores of a sequence of frames, in order, or the first exception. *)
Fixpoint scores_of (frs : TextureDetector.video) : outcome (list Q) :=
  match frs with
  | [] => Returns []
  | Returns s :: rest =>
      match scores_of rest with
      | Returns r => Returns (s ++ r)
      | Raises e => Raises e
      end
  | Raises e :: _ => Raises e
  end.

(** ** Further vocabulary: verdicts *)

(** What every wrapper guarantees about the verdict it builds from the
    outcome [det] of its detector. *)
Definition verdict_consistent (path : string) (det : outcome (gmap string pyval))
  (r : Evaluator.verdict) : Prop :=
  Evaluator.video_path r = path /\
  (forall d, Evaluator.detector_result r = Some d ->
             det = Returns d /\ dr_success d = true) /\
  (Evaluator.prediction r <> None ->
   Evaluator.error r = None /\ Evaluator.detector_result r <> None) /\
  (Evaluator.prediction r = None -> Evaluator.confidence r = PInt 0) /\
  (forall e, det = Raises e ->
             r = Evaluator.set_error (PStr e) (Evaluator.fresh path)).

(** A run on a machine without the virtual environment: the three families
    started through [PY_VENV] cannot be launched, emotion prints a document. *)
Definition no_venv : Orchestrator.env :=
  {| Orchestrator.subprocess_run := fun python_exec script =>
       if String.eqb python_exec Orchestrator.PY_VENV
       then Orchestrator.SpawnError "FileNotFoundError"
       else Orchestrator.Completed 0 script EmptyString;
     Orchestrator.json_loads := fun s => Some (Orchestrator.JStr s);
     Orchestrator.json_file := fun _ => None |}.

(** ** Further vocabulary: dataset runs *)

(** The verdict list a run handed back has the fake videos first, labelled
    FAKE, then the real ones, labelled REAL, each under its collected path. *)
Definition laid_out {S : Type} (w : Evaluator.world) (fake_dir real_dir : string)
  (o : outcome (Evaluator.run S)) : Prop :=
  forall r all_results,
    o = Returns r -> Evaluator.returned r = Some all_results ->
    exists fake_videos real_videos,
      Evaluator.collect_videos w fake_dir = Returns fake_videos /\
      Evaluator.collect_videos w real_dir = Returns real_videos /\
      map (fun v => Evaluator.video_path (Evaluator.verdict_of v)) all_results
        = fake_videos ++ real_videos /\
      map Evaluator.ground_truth all_results
        = replicate (length fake_videos) Evaluator.FAKE ++
          replicate (length real_videos) Evaluator.REAL /\
      exists rep,
        Evaluator.written r = Some rep /\ Evaluator.results rep.2 = all_results.

(** A machine on which [real] is a regular file. *)
Definition real_is_a_file : Evaluator.world :=
  {| Evaluator.disk := fun p =>
       if String.eqb p "real" then Evaluator.NotADirectory
       else Evaluator.Directory ["a.mp4"%string];
     Evaluator.os_path_join := fun d f => (d ++ "/" ++ f)%string;
     Evaluator.now := "2026-01-01T00:00:00" |}.

(** * Properties *)

(** ** Comparisons on the rationals *)

Lemma Qltb_lt a b : Qltb a b = true <-> (a < b)%Q.
Proof.
  unfold Qltb. rewrite negb_true_iff. split.
  - intros H. apply Qnot_le_lt. intros Hle. apply Qle_bool_iff in Hle. congruence.
  - intros H. destruct (Qle_bool b a) eqn:E; [|done].
    apply Qle_bool_iff in E. exfalso. eapply Qlt_not_le; eauto.
Qed.

Lemma Qltb_ge a b : Qltb a b = false <-> (b <= a)%Q.
Proof. unfold Qltb. rewrite negb_false_iff. apply Qle_bool_iff. Qed.

(** ** The debounced blink counter *)

Lemma blinks_after_snoc ears e :
  blinks_after (ears ++ [e]) = BlinkDetector.blink_step (blinks_after ears) e.
Proof. unfold blinks_after. by rewrite foldl_app. Qed.

Lemma closed_run_snoc ears e :
  closed_run (ears ++ [e]) =
  if Qltb e BlinkDetector.EAR_THRESHOLD then S (closed_run ears) else 0%nat.
Proof. unfold closed_run. by rewrite rev_unit. Qed.

Lemma counter_is_closed_run ears :
  (blinks_after ears).2 = Z.of_nat (closed_run ears).
Proof.
  induction ears as [|e ears IH] using rev_ind; [done|].
  rewrite blinks_after_snoc, closed_run_snoc.
  destruct (blinks_after ears) as [bc c]. simpl in *. subst c.
  unfold BlinkDetector.blink_step.
  destruct (Qltb e BlinkDetector.EAR_THRESHOLD); simpl; [lia|].
  by destruct (BlinkDetector.CONSEC_FRAMES <=? Z.of_nat (closed_run ears)).
Qed.

(** With [frame_interval = 1] and room under [max_frames], the detector's
    loop runs the counter over the EAR measurements of the frames that show
    a face, in order; a frame without a face leaves the counter untouched. *)
Lemma loop_every_frame max_frames frames st :
  BlinkDetector.processed_frames st + Z.of_nat (length frames) <= max_frames ->
  exists st',
    BlinkDetector.loop max_frames 1 frames st = Returns st' /\
    (BlinkDetector.blink_count st', BlinkDetector.counter st') =
      foldl BlinkDetector.blink_step
        (BlinkDetector.blink_count st, BlinkDetector.counter st) (omap id frames).
Proof.
  revert st. induction frames as [|fr frames IH]; intros st Hle.
  - by exists st.
  - cbn [BlinkDetector.loop length] in *.
    destruct (Z.ltb_spec (BlinkDetector.processed_frames st) max_frames); [|lia].
    unfold BlinkDetector.frame_step.
    rewrite Z.mod_1_r. cbn [Z.eqb negb].
    destruct fr as [e|].
    + change (omap id (Some e :: frames)) with (e :: omap id frames).
      cbn [foldl].
      destruct (BlinkDetector.blink_step
                  (BlinkDetector.blink_count st, BlinkDetector.counter st) e)
        as [bc c] eqn:E.
      cbn [mbind outcome_bind].
      match goal with |- context [BlinkDetector.loop _ _ _ ?s] =>
        destruct (IH s) as (st' & Hl & Hc) end.
      { cbn [BlinkDetector.processed_frames]. lia. }
      exists st'. split; [exact Hl | exact Hc].
    + change (omap id (None :: frames)) with (omap id frames).
      cbn [mbind outcome_bind].
      match goal with |- context [BlinkDetector.loop _ _ _ ?s] =>
        destruct (IH s) as (st' & Hl & Hc) end.
      { cbn [BlinkDetector.processed_frames]. lia. }
      exists st'. split; [exact Hl | exact Hc].
Qed.

(** C2.  For every EAR sequence [ears] and next measurement [e]: the debounce
    counter equals the length of the run of below-threshold measurements that
    ends [ears]; processing [e] adds one blink exactly when [e] is at or above
    [EAR_THRESHOLD] and that run has at least [CONSEC_FRAMES] measurements,
    and leaves the blink count unchanged otherwise; every measurement at or
    above the threshold resets the counter to 0.  The detector's loop, which
    sampled at every frame applies this counter to the measurements of the
    frames that show a face, counts exactly 1 blink on
    [0.30, 0.20, 0.18, 0.30] and exactly 0 on [0.30, 0.20, 0.30]. *)
Theorem blink_count_debounced :
  (forall (ears : list Q) (e : Q),
     let '(bc, c) := blinks_after ears in
     let '(bc', c') := blinks_after (ears ++ [e]) in
     c = Z.of_nat (closed_run ears) /\
     (bc' = bc + 1 <->
        (BlinkDetector.EAR_THRESHOLD <= e)%Q /\
        BlinkDetector.CONSEC_FRAMES <= Z.of_nat (closed_run ears)) /\
     (bc' = bc \/ bc' = bc + 1) /\
     ((BlinkDetector.EAR_THRESHOLD <= e)%Q -> c' = 0) /\
     ((e < BlinkDetector.EAR_THRESHOLD)%Q -> c' = c + 1)) /\
  (forall (frames : list (option Q)) (max_frames : Z),
     Z.of_nat (length frames) <= max_frames ->
     exists st,
       BlinkDetector.loop max_frames 1 frames BlinkDetector.init_state = Returns st /\
       (BlinkDetector.blink_count st, BlinkDetector.counter st) =
         blinks_after (omap id frames)) /\
  (exists st,
     BlinkDetector.loop 100 1 (map Some [0.30; 0.20; 0.18; 0.30]%Q)
       BlinkDetector.init_state = Returns st /\
     BlinkDetector.blink_count st = 1) /\
  (exists st,
     BlinkDetector.loop 100 1 (map Some [0.30; 0.20; 0.30]%Q)
       BlinkDetector.init_state = Returns st /\
     BlinkDetector.blink_count st = 0) /\
  BlinkDetector.EAR_THRESHOLD = 0.25%Q /\ BlinkDetector.CONSEC_FRAMES = 2.
Proof.
  split; [|split; [|split; [|split]]].
  - intros ears e.
    pose proof (counter_is_closed_run ears) as Hc.
    rewrite blinks_after_snoc.
    destruct (blinks_after ears) as [bc c]. simpl in Hc.
    unfold BlinkDetector.blink_step.
    destruct (Qltb e BlinkDetector.EAR_THRESHOLD) eqn:E.
    + apply Qltb_lt in E.
      repeat split; try lia; auto.
      * intros [Hge _]. exfalso. eapply Qlt_not_le; eauto.
      * intros Hge. exfalso. eapply Qlt_not_le; eauto.
    + apply Qltb_ge in E. rewrite <- Hc.
      destruct (Z.leb_spec BlinkDetector.CONSEC_FRAMES c).
      * repeat split; try lia; auto.
        intros Hlt. exfalso. eapply Qlt_not_le; eauto.
      * repeat split; try lia; auto.
        intros Hlt. exfalso. eapply Qlt_not_le; eauto.
  - intros frames max_frames Hle.
    apply (loop_every_frame max_frames frames BlinkDetector.init_state).
    cbn [BlinkDetector.processed_frames BlinkDetector.init_state]. lia.
  - eexists. split; [vm_compute; reflexivity | reflexivity].
  - eexists. split; [vm_compute; reflexivity | reflexivity].
  - split; reflexivity.
Qed.

Lemma blink_count_debounced_witness :
  (BlinkDetector.EAR_THRESHOLD <= 0.30)%Q /\
  BlinkDetector.CONSEC_FRAMES <= Z.of_nat (closed_run [0.30; 0.20; 0.18]%Q) /\
  blinks_after [0.30; 0.20; 0.18]%Q = (0, 2) /\
  blinks_after ([0.30; 0.20; 0.18] ++ [0.30])%Q = (1, 0).
Proof.
  pose proof (proj1 blink_count_debounced [0.30; 0.20; 0.18]%Q 0.30%Q) as H.
  assert (E1 : blinks_after [0.30; 0.20; 0.18]%Q = (0, 2)) by reflexivity.
  assert (E2 : blinks_after ([0.30; 0.20; 0.18] ++ [0.30])%Q = (1, 0)) by reflexivity.
  rewrite E1, E2 in H. destruct H as (_ & Hiff & _).
  destruct (proj1 Hiff eq_refl) as [Hge Hrun].
  repeat split; assumption.
Defined.

(** ** The decision wrappers *)

Lemma is_float_refl q : is_float (PFloat q) q.
Proof. exists q. split; [reflexivity | apply Qeq_refl]. Qed.

(** C3.  On a successful detector result each family's wrapper applies its
    own rule with its own constants: blink and headpose predict FAKE with
    confidence 0.8 when [suspicious] is true and REAL with confidence 0.9
    otherwise; emotion predicts FAKE with 0.85 and REAL with 0.80; texture
    predicts FAKE with confidence [avg_score] when [avg_score < 0.8] and REAL
    with confidence [1 - avg_score] otherwise. *)
Theorem decision_wrappers_apply_family_rules
  (path : string) (d t : gmap string pyval) (suspicious : bool) (avg_score : Q) :
  d !! "success" = Some (PBool true) ->
  d !! "suspicious" = Some (PBool suspicious) ->
  t !! "success" = Some (PBool true) ->
  t !! "avg_score" = Some (PFloat avg_score) ->
  (if suspicious
   then decided (EvaluateBlink.decision path (Returns d)) d Evaluator.FAKE 0.8
   else decided (EvaluateBlink.decision path (Returns d)) d Evaluator.REAL 0.9) /\
  (if suspicious
   then decided (EvaluateHeadpose.decision path (Returns d)) d Evaluator.FAKE 0.8
   else decided (EvaluateHeadpose.decision path (Returns d)) d Evaluator.REAL 0.9) /\
  (if suspicious
   then decided (EvaluateEmotion.decision path (Returns d)) d Evaluator.FAKE 0.85
   else decided (EvaluateEmotion.decision path (Returns d)) d Evaluator.REAL 0.80) /\
  ((avg_score < 0.8)%Q ->
   decided (EvaluateTexture.decision path (Returns t)) t Evaluator.FAKE avg_score) /\
  ((0.8 <= avg_score)%Q ->
   decided (EvaluateTexture.decision path (Returns t)) t Evaluator.REAL (1 - avg_score)).
Proof.
  intros Hs Hsus Hts Hta.
  unfold EvaluateBlink.decision, EvaluateHeadpose.decision,
    EvaluateEmotion.decision, EvaluateTexture.decision, getitem.
  rewrite Hs, Hsus, Hts, Hta. cbn [truthy negb].
  split; [|split; [|split; [|split]]];
    try (destruct suspicious; repeat split; apply is_float_refl).
  - intros Hlt. apply Qltb_lt in Hlt.
    cbn [EvaluateTexture.lt_float as_number]. rewrite Hlt.
    repeat split. apply is_float_refl.
  - intros Hge. apply Qltb_ge in Hge.
    cbn [EvaluateTexture.lt_float as_number]. rewrite Hge.
    repeat split. apply is_float_refl.
Qed.

Lemma decision_wrappers_apply_family_rules_witness :
  let d : gmap string pyval :=
    <["success" := PBool true]> (<["suspicious" := PBool true]> ∅) in
  let t : gmap string pyval :=
    <["success" := PBool true]> (<["avg_score" := PFloat 0.9]> ∅) in
  decided (EvaluateBlink.decision "a.mp4" (Returns d)) d Evaluator.FAKE 0.8 /\
  decided (EvaluateHeadpose.decision "a.mp4" (Returns d)) d Evaluator.FAKE 0.8 /\
  decided (EvaluateEmotion.decision "a.mp4" (Returns d)) d Evaluator.FAKE 0.85 /\
  decided (EvaluateTexture.decision "a.mp4" (Returns t)) t Evaluator.REAL (1 - 0.9).
Proof.
  intros d t.
  pose proof (decision_wrappers_apply_family_rules "a.mp4" d t true 0.9
                eq_refl eq_refl eq_refl eq_refl) as (Hb & Hh & He & _ & Ht).
  repeat split; try apply Hb; try apply Hh; try apply He; apply Ht; discriminate.
Defined.

(** ** The confusion matrix *)

Lemma tally_cons f r l :
  tally f (r :: l) = (if f r then 1 else 0) + tally f l.
Proof.
  unfold tally. rewrite filter_cons.
  destruct (f r); case_decide; try congruence; cbn [length]; lia.
Qed.

Lemma tally_nil f : tally f [] = 0.
Proof. reflexivity. Qed.

Lemma tally_bounds f l : 0 <= tally f l <= Z.of_nat (length l).
Proof.
  induction l as [|r l IH]; [rewrite tally_nil; simpl; lia|].
  rewrite tally_cons. cbn [length]. destruct (f r); lia.
Qed.

Lemma tally_full f l :
  tally f l = Z.of_nat (length l) <-> Forall (fun r => f r = true) l.
Proof.
  induction l as [|r l IH]; [split; [constructor | reflexivity]|].
  rewrite tally_cons. cbn [length]. pose proof (tally_bounds f l).
  rewrite Forall_cons. destruct (f r) eqn:E.
  - rewrite <- IH. split; [intros; split; [done | lia] | intros [_ ?]; lia].
  - split; [lia | intros [? _]; congruence].
Qed.

Lemma foldl_count_step l : forall c,
  foldl Evaluator.count_step c l =
  {| Evaluator.tp := Evaluator.tp c + tally (hits Evaluator.FAKE Evaluator.FAKE) l;
     Evaluator.tn := Evaluator.tn c + tally (hits Evaluator.REAL Evaluator.REAL) l;
     Evaluator.fp := Evaluator.fp c + tally (hits Evaluator.REAL Evaluator.FAKE) l;
     Evaluator.fn := Evaluator.fn c + tally (hits Evaluator.FAKE Evaluator.REAL) l;
     Evaluator.correct := Evaluator.correct c + tally Evaluator.is_correct l |}.
Proof.
  induction l as [|r l IH]; intros c.
  - rewrite !tally_nil, !Z.add_0_r. by destruct c.
  - cbn [foldl]. rewrite IH, !tally_cons.
    unfold Evaluator.count_step, hits, Evaluator.is_correct.
    destruct r as [v gt]. cbn [Evaluator.verdict_of Evaluator.ground_truth].
    destruct (Evaluator.prediction v) as [[]|], gt; cbn; f_equal; lia.
Qed.

Lemma count_all_tallies l :
  Evaluator.count_all l =
  {| Evaluator.tp := tally (hits Evaluator.FAKE Evaluator.FAKE) l;
     Evaluator.tn := tally (hits Evaluator.REAL Evaluator.REAL) l;
     Evaluator.fp := tally (hits Evaluator.REAL Evaluator.FAKE) l;
     Evaluator.fn := tally (hits Evaluator.FAKE Evaluator.REAL) l;
     Evaluator.correct := tally Evaluator.is_correct l |}.
Proof. unfold Evaluator.count_all. by rewrite foldl_count_step. Qed.

Lemma cells_count_all l : cells (Evaluator.count_all l) = tally has_prediction l.
Proof.
  rewrite count_all_tallies. unfold cells. cbn.
  induction l as [|r l IH]; [done|].
  rewrite !tally_cons. unfold hits, has_prediction in *.
  destruct r as [v gt]. cbn [Evaluator.verdict_of Evaluator.ground_truth].
  destruct (Evaluator.prediction v) as [[]|], gt; cbn; lia.
Qed.

(** C7.  In the evaluators that keep a confusion matrix, a verdict whose
    prediction is none leaves all four cells unchanged; a verdict with a
    prediction adds one to exactly one cell; so TP+TN+FP+FN is the number of
    verdicts with a prediction, is at most the number of videos, and equals
    it exactly when no video has prediction none. *)
Theorem confusion_matrix_excludes_none (all_results : list Evaluator.labeled) :
  let c := Evaluator.count_all all_results in
  (forall acc r,
     Evaluator.prediction (Evaluator.verdict_of r) = None ->
     Evaluator.count_step acc r = acc) /\
  (forall acc r p,
     Evaluator.prediction (Evaluator.verdict_of r) = Some p ->
     let acc' := Evaluator.count_step acc r in
     cells acc' = cells acc + 1 /\
     Evaluator.tp acc <= Evaluator.tp acc' /\ Evaluator.tn acc <= Evaluator.tn acc' /\
     Evaluator.fp acc <= Evaluator.fp acc' /\ Evaluator.fn acc <= Evaluator.fn acc') /\
  cells c = tally has_prediction all_results /\
  cells c <= Z.of_nat (length all_results) /\
  (cells c = Z.of_nat (length all_results) <->
   Forall (fun r => Evaluator.prediction (Evaluator.verdict_of r) <> None) all_results).
Proof.
  cbv zeta. split; [|split; [|split; [|split]]].
  - intros acc r H. unfold Evaluator.count_step. by rewrite H.
  - intros acc r p H. unfold Evaluator.count_step, cells. rewrite H.
    destruct (Evaluator.ground_truth r), p; cbn; lia.
  - apply cells_count_all.
  - rewrite cells_count_all. apply tally_bounds.
  - rewrite cells_count_all, tally_full.
    apply Forall_proper; [|done]. intros r. unfold has_prediction.
    destruct (Evaluator.prediction (Evaluator.verdict_of r)); split; congruence.
Qed.

Lemma confusion_matrix_excludes_none_witness :
  cells (Evaluator.count_all two_fake_videos) = 1 /\
  cells (Evaluator.count_all two_fake_videos) <
    Z.of_nat (length two_fake_videos).
Proof.
  destruct (confusion_matrix_excludes_none two_fake_videos)
    as (_ & _ & Hcells & _ & _).
  rewrite Hcells. split; reflexivity.
Defined.

(** ** The dataset metrics *)

(** C1, as the code has it.  The emotion and texture evaluators compute
    accuracy = correct / (TP+TN+FP+FN) × 100, precision = TP/(TP+FP) × 100,
    recall = TP/(TP+FN) × 100 and f1 = 2·precision·recall/(precision+recall),
    each 0 when its denominator is 0, where the cells and [correct] count the
    verdicts by ground truth and prediction.  The blink and headpose
    evaluators compute only accuracy, as correct / total × 100 where total is
    the number of all verdicts of the batch, those with prediction none
    included (0 for an empty batch). *)
Theorem evaluator_metrics_formulas (all_results : list Evaluator.labeled) :
  let TP := tally (hits Evaluator.FAKE Evaluator.FAKE) all_results in
  let TN := tally (hits Evaluator.REAL Evaluator.REAL) all_results in
  let FP := tally (hits Evaluator.REAL Evaluator.FAKE) all_results in
  let FN := tally (hits Evaluator.FAKE Evaluator.REAL) all_results in
  let correct := tally Evaluator.is_correct all_results in
  let s := Evaluator.full_metrics all_results in
  let b := Evaluator.simple_metrics all_results in
  Evaluator.confusion_matrix s =
    {| Evaluator.tp := TP; Evaluator.tn := TN; Evaluator.fp := FP;
       Evaluator.fn := FN; Evaluator.correct := correct |} /\
  Evaluator.accuracy s = percent correct (TP + TN + FP + FN) /\
  Evaluator.precision s = percent TP (TP + FP) /\
  Evaluator.recall s = percent TP (TP + FN) /\
  ((Evaluator.precision s + Evaluator.recall s == 0)%Q ->
   Evaluator.f1_score s = 0%Q) /\
  (~ (Evaluator.precision s + Evaluator.recall s == 0)%Q ->
   Evaluator.f1_score s =
   (2 * Evaluator.precision s * Evaluator.recall s /
    (Evaluator.precision s + Evaluator.recall s))%Q) /\
  Evaluator.total_videos b = Z.of_nat (length all_results) /\
  Evaluator.simple_accuracy b = percent correct (Z.of_nat (length all_results)).
Proof.
  cbv zeta. unfold Evaluator.full_metrics, Evaluator.simple_metrics, percent.
  rewrite count_all_tallies.
  cbn [Evaluator.confusion_matrix Evaluator.accuracy Evaluator.precision
       Evaluator.recall Evaluator.f1_score Evaluator.total_videos
       Evaluator.simple_accuracy Evaluator.tp Evaluator.tn Evaluator.fp
       Evaluator.fn Evaluator.correct].
  split; [reflexivity|].
  split; [by destruct (_ =? 0)|].
  split; [by destruct (_ =? 0)|].
  split; [by destruct (_ =? 0)|].
  split; [|split; [|split; [reflexivity|]]].
  - intros H. apply Qeq_bool_iff in H. by rewrite H.
  - intros H. destruct (Qeq_bool _ 0) eqn:E; [|done].
    apply Qeq_bool_iff in E. contradiction.
  - fold (tally Evaluator.is_correct all_results).
    destruct (Z.ltb_spec 0 (Z.of_nat (length all_results))) as [Hlt|Hge].
    + destruct (Z.eqb_spec (Z.of_nat (length all_results)) 0); [lia | done].
    + destruct (Z.eqb_spec (Z.of_nat (length all_results)) 0); [done | lia].
Qed.

Lemma evaluator_metrics_formulas_witness :
  Evaluator.simple_accuracy (Evaluator.simple_metrics two_fake_videos) =
    percent (tally Evaluator.is_correct two_fake_videos) 2 /\
  Evaluator.accuracy (Evaluator.full_metrics two_fake_videos) =
    percent (tally Evaluator.is_correct two_fake_videos)
      (tally has_prediction two_fake_videos).
Proof.
  destruct (evaluator_metrics_formulas two_fake_videos)
    as (_ & Hacc & _ & _ & _ & _ & _ & Hsimple).
  split; [exact Hsimple|]. rewrite Hacc. reflexivity.
Defined.

(** C1, as the spec has it, fails for the blink evaluator: with one video
    predicted FAKE correctly and one that could not be opened, the evaluator
    reports 50 where correct / (TP+TN+FP+FN) × 100 is 100. *)
Lemma blink_accuracy_divides_by_all_videos :
  let c := Evaluator.count_all two_fake_videos in
  map (fun r => Evaluator.prediction (Evaluator.verdict_of r)) two_fake_videos =
    [Some Evaluator.FAKE; None] /\
  cells c = 1 /\ Evaluator.correct c = 1 /\
  (Evaluator.simple_accuracy (Evaluator.simple_metrics two_fake_videos) == 50)%Q /\
  (percent (Evaluator.correct c) (cells c) == 100)%Q /\
  ~ (Evaluator.simple_accuracy (Evaluator.simple_metrics two_fake_videos) ==
     percent (Evaluator.correct c) (cells c))%Q.
Proof.
  cbv zeta.
  assert (Hp : map (fun r => Evaluator.prediction (Evaluator.verdict_of r))
                 two_fake_videos = [Some Evaluator.FAKE; None])
    by (vm_compute; reflexivity).
  split; [exact Hp|].
  assert (Hc : Evaluator.count_all two_fake_videos =
               {| Evaluator.tp := 1; Evaluator.tn := 0; Evaluator.fp := 0;
                  Evaluator.fn := 0; Evaluator.correct := 1 |})
    by (vm_compute; reflexivity).
  rewrite Hc.
  assert (Ha : Evaluator.simple_accuracy (Evaluator.simple_metrics two_fake_videos)
               = (inject_Z 1 / inject_Z 2 * 100)%Q)
    by (vm_compute; reflexivity).
  rewrite Ha.
  repeat split; try reflexivity; discriminate.
Qed.

(** ** Texture aggregation *)

Lemma ratio_le (a b c d : Z) :
  0 < b -> 0 < d -> a * d <= c * b ->
  (inject_Z a / inject_Z b <= inject_Z c / inject_Z d)%Q.
Proof.
  intros Hb Hd H. destruct b as [|b|b]; try lia. destruct d as [|d|d]; try lia.
  rewrite <- !Qmake_Qdiv. unfold Qle. cbn [Qnum Qden]. exact H.
Qed.

Lemma above_threshold_le scores : (above_threshold scores <= length scores)%nat.
Proof. apply length_filter. Qed.

Lemma above_threshold_snoc scores s :
  (TextureDetector.THRESHOLD < s)%Q ->
  above_threshold (scores ++ [s]) = S (above_threshold scores).
Proof.
  intros H. apply Qltb_lt in H. unfold above_threshold.
  rewrite filter_app, length_app, filter_cons_True by exact H.
  cbn [filter length]. rewrite filter_nil. cbn [length]. lia.
Qed.

Lemma fake_ratio_of_snoc scores s :
  scores <> [] -> (TextureDetector.THRESHOLD < s)%Q ->
  (TextureDetector.fake_ratio_of scores <=
   TextureDetector.fake_ratio_of (scores ++ [s]))%Q.
Proof.
  intros Hne Hs. unfold TextureDetector.fake_ratio_of.
  fold (above_threshold scores). fold (above_threshold (scores ++ [s])).
  rewrite above_threshold_snoc by exact Hs. rewrite length_app. cbn [length].
  pose proof (above_threshold_le scores).
  assert (0 < length scores)%nat by (destruct scores; [done | cbn; lia]).
  apply ratio_le; nia.
Qed.

Lemma fake_ratio_of_nonneg scores : (0 <= TextureDetector.fake_ratio_of scores)%Q.
Proof.
  unfold TextureDetector.fake_ratio_of.
  destruct scores as [|s0 scores]; [discriminate|].
  change 0%Q with (inject_Z 0 / inject_Z 1)%Q. apply ratio_le; cbn [length]; lia.
Qed.

(** What the aggregator stores after a run that produced at least one score. *)
Lemma analyze_texture_success path v scores :
  TextureDetector.loop v 0 [] = Returns scores -> scores <> [] ->
  let d := TextureDetector.analyze_texture path v in
  d !! "success" = Some (PBool true) /\
  d !! "avg_score" = Some (PFloat (mean scores)) /\
  d !! "fake_ratio" = Some (PFloat (TextureDetector.fake_ratio_of scores)) /\
  d !! "frames_analyzed" = Some (PInt (Z.of_nat (length scores))).
Proof.
  intros Hl Hne. cbv zeta. unfold TextureDetector.analyze_texture.
  rewrite Hl. destruct scores as [|s0 scores]; [done|].
  unfold TextureDetector.template. by simplify_map_eq.
Qed.

(** What the aggregator stores after a run that produced no score. *)
Lemma analyze_texture_no_scores path v :
  TextureDetector.loop v 0 [] = Returns [] ->
  TextureDetector.analyze_texture path v =
  <["reason" := PStr "no_faces_detected"]> (TextureDetector.template path).
Proof. intros Hl. unfold TextureDetector.analyze_texture. by rewrite Hl. Qed.

(** C8.  Appending a score above [THRESHOLD] to the scores of a video never
    decreases the [fake_ratio] the aggregator reports, whatever the scores
    were (with no score at all the aggregator reports 0). *)
Theorem fake_ratio_monotone_under_append
  (path : string) (v v' : TextureDetector.video) (scores : list Q) (s : Q) :
  TextureDetector.loop v 0 [] = Returns scores ->
  TextureDetector.loop v' 0 [] = Returns (scores ++ [s]) ->
  (TextureDetector.THRESHOLD < s)%Q ->
  exists r r',
    number_at (TextureDetector.analyze_texture path v) "fake_ratio" = Some r /\
    number_at (TextureDetector.analyze_texture path v') "fake_ratio" = Some r' /\
    (r' == inject_Z (Z.of_nat (above_threshold (scores ++ [s]))) /
           inject_Z (Z.of_nat (length (scores ++ [s]))))%Q /\
    (r <= r')%Q.
Proof.
  intros Hv Hv' Hs.
  assert (Hne' : scores ++ [s] <> []) by (destruct scores; discriminate).
  destruct (analyze_texture_success path v' _ Hv' Hne') as (_ & _ & Hr' & _).
  exists (match scores with [] => 0%Q | _ => TextureDetector.fake_ratio_of scores end),
    (TextureDetector.fake_ratio_of (scores ++ [s])).
  unfold number_at. rewrite Hr'. cbn [mbind option_bind as_number].
  split; [|split; [reflexivity | split; [reflexivity|]]].
  - destruct scores as [|s0 scores].
    + rewrite (analyze_texture_no_scores path v Hv).
      unfold TextureDetector.template. by simplify_map_eq.
    + destruct (analyze_texture_success path v _ Hv) as (_ & _ & Hr & _); [done|].
      by rewrite Hr.
  - destruct scores as [|s0 scores].
    + apply fake_ratio_of_nonneg.
    + by apply fake_ratio_of_snoc.
Qed.

Lemma fake_ratio_monotone_under_append_witness :
  exists r r',
    number_at (TextureDetector.analyze_texture "a.mp4" [Returns [0.9; 0.2]%Q])
      "fake_ratio" = Some r /\
    number_at (TextureDetector.analyze_texture "a.mp4" [Returns [0.9; 0.2; 0.7]%Q])
      "fake_ratio" = Some r' /\
    (r' == inject_Z (Z.of_nat (above_threshold ([0.9; 0.2] ++ [0.7])%Q)) /
           inject_Z (Z.of_nat (length ([0.9; 0.2] ++ [0.7])%Q)))%Q /\
    (r <= r')%Q.
Proof.
  apply (fake_ratio_monotone_under_append "a.mp4"
           [Returns [0.9; 0.2]%Q] [Returns [0.9; 0.2; 0.7]%Q] [0.9; 0.2]%Q 0.7%Q).
  - reflexivity.
  - reflexivity.
  - reflexivity.
Defined.

(** ** The texture wrapper's confidence *)






(** ** The detector results *)

Lemma blink_heuristic_reasons rate std avg s r :
  BlinkDetector.heuristic rate std avg = (s, r) -> (r <> [] <-> s = true).
Proof.
  unfold BlinkDetector.heuristic.
  destruct (Qltb rate 5), (Qltb 50 rate), (Qltb std 0.008),
    (Qltb avg 0.12), (Qltb 0.38 avg); cbn;
    intros [= <- <-]; split; congruence.
Qed.

Lemma headpose_heuristic_reasons sv s r :
  HeadposeDetector.heuristic sv = (s, r) -> (r <> [] <-> s = true).
Proof.
  unfold HeadposeDetector.heuristic.
  destruct (HeadposeDetector.np_lt sv 0.000001), (HeadposeDetector.np_gt sv 0.01);
    cbn; intros [= <- <-]; split; congruence.
Qed.

Lemma failure_dict_invariant reason :
  detector_invariant
    (<["success" := PBool false]> (<["reason" := PStr reason]> ∅)).
Proof.
  split.
  - intros _. split; [|reflexivity].
    apply map_eq. intros k. unfold dr_metrics.
    rewrite lookup_empty. apply map_lookup_filter_None. right.
    intros v Hk. cbn.
    destruct (decide (k = "success")) as [->|]; [by simplify_map_eq|].
    destruct (decide (k = "reason")) as [->|]; by simplify_map_eq.
  - unfold dr_reasons, dr_suspicious. simplify_map_eq. split; congruence.
Qed.

Lemma map_PStr_nil (r : list string) : map PStr r <> [] <-> r <> [].
Proof. destruct r; cbn; split; congruence. Qed.

Lemma blink_result_invariant sqrt v max_frames frame_interval d :
  BlinkDetector.analyze_blink sqrt v max_frames frame_interval = Returns d ->
  detector_invariant d.
Proof.
  unfold BlinkDetector.analyze_blink.
  destruct (BlinkDetector.opened v); cbn [negb].
  2: { intros [= <-]. apply failure_dict_invariant. }
  destruct (BlinkDetector.loop _ _ _ _) as [st|e]; cbn [mbind outcome_bind];
    [|discriminate].
  destruct (BlinkDetector.ear_history st) as [|e0 h] eqn:Hh.
  { intros [= <-]. apply failure_dict_invariant. }
  destruct (BlinkDetector.heuristic _ _ _) as [s r] eqn:Hheur.
  intros [= <-]. apply blink_heuristic_reasons in Hheur.
  unfold detector_invariant, dr_success, dr_suspicious, dr_reasons.
  simplify_map_eq. cbn [truthy]. split; [discriminate|].
  by rewrite map_PStr_nil.
Qed.

Lemma headpose_result_invariant arctan2 sqrt v save_debug max_debug_frames :
  detector_invariant
    (HeadposeDetector.analyze_headpose arctan2 sqrt v save_debug max_debug_frames).
Proof.
  unfold HeadposeDetector.analyze_headpose.
  destruct (HeadposeDetector.opened v); cbn [negb];
    [|apply failure_dict_invariant].
  destruct (HeadposeDetector.pitch_vals _) as [|p0 ps] eqn:Hp;
    [apply failure_dict_invariant|].
  destruct (HeadposeDetector.heuristic _) as [s r] eqn:Hheur.
  apply headpose_heuristic_reasons in Hheur.
  unfold detector_invariant, dr_success, dr_suspicious, dr_reasons.
  simplify_map_eq. cbn [truthy]. split; [discriminate|].
  by rewrite map_PStr_nil.
Qed.

Lemma texture_failed_metrics path reason :
  dr_metrics (<["reason" := PStr reason]> (TextureDetector.template path)) =
  zeroed_texture_metrics.
Proof. vm_compute. reflexivity. Qed.

Lemma texture_result_shape path v :
  let d := TextureDetector.analyze_texture path v in
  dr_suspicious d = false /\ dr_reasons d = [] /\
  (dr_success d = false -> dr_metrics d = zeroed_texture_metrics).
Proof.
  cbv zeta. unfold TextureDetector.analyze_texture.
  destruct (TextureDetector.loop v 0 []) as [[|s0 scores]|e].
  - split; [reflexivity|]. split; [reflexivity|].
    intros _. apply texture_failed_metrics.
  - unfold dr_suspicious, dr_reasons, dr_success, TextureDetector.template.
    simplify_map_eq. cbn [truthy]. repeat split; discriminate.
  - split; [reflexivity|]. split; [reflexivity|].
    intros _. apply texture_failed_metrics.
Qed.

(** C5, as the code has it.  Every result of the blink and headpose detectors
    satisfies the invariant: when [success] is false it has no metrics and is
    not suspicious, and its reasons are non-empty exactly when it is
    suspicious.  The texture detector never sets [suspicious] or [reasons]
    (so no result of it is suspicious or has reasons), and its failed results
    keep the zeroed metrics [frames_analyzed], [fake_ratio] and [avg_score]
    of its template instead of an empty mapping. *)
Theorem detector_results_invariant :
  (forall sqrt v max_frames frame_interval d,
     BlinkDetector.analyze_blink sqrt v max_frames frame_interval = Returns d ->
     detector_invariant d) /\
  (forall arctan2 sqrt v save_debug max_debug_frames,
     detector_invariant
       (HeadposeDetector.analyze_headpose arctan2 sqrt v save_debug max_debug_frames)) /\
  (forall path v,
     let d := TextureDetector.analyze_texture path v in
     dr_suspicious d = false /\ dr_reasons d = [] /\
     (dr_success d = false -> dr_metrics d = zeroed_texture_metrics)).
Proof.
  split; [|split].
  - apply blink_result_invariant.
  - apply headpose_result_invariant.
  - apply texture_result_shape.
Qed.

Lemma detector_results_invariant_witness :
  let d : gmap string pyval :=
    <["success" := PBool false]> (<["reason" := PStr "no_faces_detected"]> ∅) in
  BlinkDetector.analyze_blink approx_sqrt
    {| BlinkDetector.opened := true; BlinkDetector.frames := [None; None; None] |}
    100 3 = Returns d /\
  dr_success d = false /\
  detector_invariant d.
Proof.
  intros d. split; [reflexivity|]. split; [reflexivity|].
  apply (proj1 detector_results_invariant approx_sqrt
           {| BlinkDetector.opened := true;
              BlinkDetector.frames := [None; None; None] |} 100 3 d).
  reflexivity.
Defined.

(** C5, as the spec has it, fails for the texture detector: a video in which
    no face is found gives [success = False] together with three metrics. *)
Lemma texture_failure_keeps_metrics :
  let d := TextureDetector.analyze_texture "fake/a.mp4" [Returns []; Returns []] in
  dr_success d = false /\
  d !! "reason" = Some (PStr "no_faces_detected") /\
  dr_metrics d !! "avg_score" = Some (PInt 0) /\
  dr_metrics d !! "fake_ratio" = Some (PInt 0) /\
  dr_metrics d !! "frames_analyzed" = Some (PInt 0) /\
  dr_metrics d <> ∅.
Proof.
  cbv zeta. repeat split; try (vm_compute; reflexivity).
  intros H. apply (f_equal (fun m => m !! "avg_score")) in H.
  vm_compute in H. discriminate.
Qed.

(** ** Dataset runs *)








(** ** The orchestrator *)

Lemma wait_returns i schedule : forall done,
  i ∈ done ++ schedule ->
  exists done' schedule',
    Orchestrator.wait i done schedule = Some (done', schedule') /\
    (forall j, j ∈ done ++ schedule -> j ∈ done' ++ schedule').
Proof.
  induction schedule as [|j rest IH]; intros done Hi.
  - cbn [Orchestrator.wait]. rewrite app_nil_r in Hi.
    rewrite bool_decide_eq_true_2 by exact Hi. by exists done, [].
  - cbn [Orchestrator.wait]. case_bool_decide as Hd.
    + by exists done, (j :: rest).
    + destruct (IH (j :: done)) as (done' & schedule' & Hw & Hsub).
      { rewrite elem_of_app, !elem_of_cons in *. tauto. }
      exists done', schedule'. split; [exact Hw|].
      intros k Hk. apply Hsub.
      rewrite elem_of_app, !elem_of_cons in *. tauto.
Qed.

Lemma run_detector_name e name py scr n r :
  Orchestrator.run_detector e name py scr = Returns (n, r) -> n = name.
Proof.
  unfold Orchestrator.run_detector.
  destruct (Orchestrator.subprocess_run e py scr) as [rc out err|]; [|discriminate].
  destruct (negb (rc =? 0)); [congruence|].
  destruct (Orchestrator.json_loads e out); [congruence|].
  destruct (Orchestrator.json_file e _); congruence.
Qed.

(** When no task's [subprocess.run] raises and every future finishes, the
    collecting loop stores each task's value under its name, in the order of
    the futures, whatever the order in which they finished. *)
Lemma collect_prints e futures : forall done schedule results,
  Forall (fun it => it.1 ∈ done ++ schedule) futures ->
  Forall (fun it => exists out,
            Orchestrator.run_detector e it.2.1 it.2.2.1 it.2.2.2 = Returns out)
    futures ->
  Orchestrator.collect e futures done schedule results =
  Orchestrator.Printed
    (foldl (fun acc it => Orchestrator.dict_set acc it.2.1 (slot_of e it.2))
       results futures).
Proof.
  induction futures as [|[i [name [py scr]]] rest IH];
    intros done schedule results Hin Hrun; [reflexivity|].
  apply Forall_cons in Hin as [Hi Hin]. apply Forall_cons in Hrun as [[out Ho] Hrun].
  cbn [fst snd] in Hi, Ho.
  destruct (wait_returns i schedule done Hi) as (done' & schedule' & Hw & Hsub).
  cbn [Orchestrator.collect foldl fst snd]. rewrite Hw.
  unfold slot_of at 2. cbn [fst snd]. rewrite Ho. destruct out as [n r].
  rewrite (run_detector_name _ _ _ _ _ _ Ho).
  apply IH; [|exact Hrun].
  eapply Forall_impl; [exact Hin|]. intros it Hit. by apply Hsub.
Qed.

Lemma slot_of_fails e t : task_fails e t -> slot_of e t = Orchestrator.JNull.
Proof.
  intros (rc & out & err & Hrun & H). unfold slot_of, Orchestrator.run_detector.
  rewrite Hrun. destruct H as [Hrc|[Hl Hf]].
  - destruct (Z.eqb_spec rc 0); [contradiction | reflexivity].
  - destruct (negb (rc =? 0)); [reflexivity|]. by rewrite Hl, Hf.
Qed.

Lemma slot_of_yields e t doc : task_yields e t doc -> slot_of e t = doc.
Proof.
  intros (out & err & Hrun & H). unfold slot_of, Orchestrator.run_detector.
  rewrite Hrun. cbn [Z.eqb negb]. destruct H as [Hl|[Hl Hf]].
  - by rewrite Hl.
  - by rewrite Hl, Hf.
Qed.

Lemma settled_returns e t :
  task_fails e t \/ (exists doc, task_yields e t doc) ->
  exists out, Orchestrator.run_detector e t.1 t.2.1 t.2.2 = Returns out.
Proof.
  unfold Orchestrator.run_detector.
  intros [(rc & out & err & Hrun & _)|(doc & out & err & Hrun & _)]; rewrite Hrun.
  - destruct (negb (rc =? 0)); [by eexists|].
    destruct (Orchestrator.json_loads e out); [by eexists|].
    destruct (Orchestrator.json_file e _); by eexists.
  - cbn [Z.eqb negb].
    destruct (Orchestrator.json_loads e out); [by eexists|].
    destruct (Orchestrator.json_file e _); by eexists.
Qed.

Lemma main_prints e schedule :
  schedule ≡ₚ [0; 1; 2; 3]%nat ->
  Forall (fun t => task_fails e t \/ (exists doc, task_yields e t doc))
    Orchestrator.SCRIPTS ->
  Orchestrator.main e schedule =
  Orchestrator.Printed (map (fun t => (t.1, slot_of e t)) Orchestrator.SCRIPTS).
Proof.
  intros Hperm Hall. unfold Orchestrator.main.
  rewrite collect_prints; [reflexivity| |].
  - cbn [app]. repeat constructor; cbn [fst]; rewrite Hperm;
      rewrite !elem_of_cons; tauto.
  - unfold Orchestrator.SCRIPTS in *.
    repeat (apply Forall_cons in Hall as [? Hall]).
    repeat constructor; by apply settled_returns.
Qed.

(** C4.  When every family's task either fails (non-zero exit, or output that
    cannot be parsed with no readable fallback file) or succeeds with a
    document, and whatever the order in which the tasks finish, [main] prints
    a report whose keys are emotion, blink, headpose, texture in this order;
    a failed family's value is null and a successful family's value is its
    document, unchanged.  With one failed family and three that succeed with
    a non-null document, the report has exactly one null and three populated
    values. *)
Theorem orchestrator_isolates_failures (e : Orchestrator.env) (schedule : list nat) :
  schedule ≡ₚ [0; 1; 2; 3]%nat ->
  Forall (fun t => task_fails e t \/ (exists doc, task_yields e t doc))
    Orchestrator.SCRIPTS ->
  exists r_emotion r_blink r_headpose r_texture,
    let results :=
      [("emotion", r_emotion); ("blink", r_blink);
       ("headpose", r_headpose); ("texture", r_texture)]%string in
    Orchestrator.main e schedule = Orchestrator.Printed results /\
    Forall2 (fun t kv =>
               kv.1 = t.1 /\
               (task_fails e t -> kv.2 = Orchestrator.JNull) /\
               (forall doc, task_yields e t doc -> kv.2 = doc))
      Orchestrator.SCRIPTS results /\
    (forall failed,
       failed ∈ Orchestrator.SCRIPTS ->
       task_fails e failed ->
       (forall t, t ∈ Orchestrator.SCRIPTS -> t <> failed ->
                  exists doc, task_yields e t doc /\ doc <> Orchestrator.JNull) ->
       nulls results = 1%nat /\ populated results = 3%nat).
Proof.
  intros Hperm Hall.
  pose proof (main_prints e schedule Hperm Hall) as Hmain.
  unfold Orchestrator.SCRIPTS in *. cbn [map fst] in Hmain.
  eexists _, _, _, _. cbv zeta. split; [exact Hmain|]. split.
  - repeat constructor; cbn [fst snd];
      first [apply slot_of_fails | intros doc; apply slot_of_yields].
  - intros failed Hin Hfail Hothers.
    assert (Hnull : forall t, t = failed -> is_null (slot_of e t) = true).
    { intros t ->. by rewrite slot_of_fails. }
    assert (Hpop : forall t, t ∈ Orchestrator.SCRIPTS -> t <> failed ->
                             is_null (slot_of e t) = false).
    { intros t Ht Hne. destruct (Hothers t Ht Hne) as (doc & Hy & Hd).
      rewrite (slot_of_yields _ _ _ Hy). by destruct doc. }
    unfold Orchestrator.SCRIPTS in *.
    unfold nulls, populated. rewrite !filter_cons, !filter_nil. cbn [snd].
    rewrite !elem_of_cons, elem_of_nil in Hin.
    destruct Hin as [->|[->|[->|[->|[]]]]];
      repeat match goal with
        | |- context [is_null (slot_of e ?t)] =>
            first [ rewrite (Hnull t eq_refl)
                  | rewrite (Hpop t) by
                      (first [ rewrite !elem_of_cons; tauto | discriminate ]) ]
        end;
      repeat case_decide; try congruence; split; reflexivity.
Qed.

Lemma orchestrator_isolates_failures_witness :
  exists r_emotion r_blink r_headpose r_texture,
    Orchestrator.main blink_crashes [3; 1; 0; 2]%nat =
      Orchestrator.Printed
        [("emotion", r_emotion); ("blink", r_blink);
         ("headpose", r_headpose); ("texture", r_texture)]%string /\
    r_blink = Orchestrator.JNull /\
    r_texture = Orchestrator.JStr "evaluate_texture.py".
Proof.
  destruct (orchestrator_isolates_failures blink_crashes [3; 1; 0; 2]%nat)
    as (re & rb & rh & rt & Hmain & Hslots & _).
  - apply (Permutation_sym (Permutation_trans
             (perm_swap 1%nat 0%nat [2; 3]%nat)
             (Permutation_trans
                (perm_skip 1%nat (Permutation_trans
                    (perm_skip 0%nat (perm_swap 3%nat 2%nat []))
                    (perm_swap 3%nat 0%nat [2]%nat)))
                (perm_swap 3%nat 1%nat [0; 2]%nat)))).
  - unfold Orchestrator.SCRIPTS.
    constructor; [right; exists (Orchestrator.JStr "evaluate_emotion.py");
                  exists "evaluate_emotion.py"%string, EmptyString;
                  split; [reflexivity | left; reflexivity]|].
    constructor; [left; exists 1, EmptyString, "Traceback"%string;
                  split; [reflexivity | left; discriminate]|].
    constructor; [right; exists (Orchestrator.JStr "evaluate_headpose.py");
                  exists "evaluate_headpose.py"%string, EmptyString;
                  split; [reflexivity | left; reflexivity]|].
    constructor; [right; exists (Orchestrator.JStr "evaluate_texture.py");
                  exists "evaluate_texture.py"%string, EmptyString;
                  split; [reflexivity | left; reflexivity]|].
    constructor.
  - exists re, rb, rh, rt. split; [exact Hmain|].
    unfold Orchestrator.SCRIPTS in Hslots.
    apply Forall2_cons in Hslots as [_ Hslots].
    apply Forall2_cons in Hslots as [(_ & Hb & _) Hslots].
    apply Forall2_cons in Hslots as [_ Hslots].
    apply Forall2_cons in Hslots as [(_ & _ & Ht) _].
    split.
    + apply Hb. exists 1, EmptyString, "Traceback"%string.
      split; [reflexivity | left; discriminate].
    + apply Ht. exists "evaluate_texture.py"%string, EmptyString.
      split; [reflexivity | left; reflexivity].
Defined.

(** C9.  The fallback branch reads [<name>_evaluation.json].  That is the
    file the emotion and texture evaluators write, but the blink and headpose
    evaluators write [blink_results.json] and [headpose_results.json]: when
    every task prints text that is not JSON and each evaluator's report is on
    disk, the orchestrator recovers the emotion and texture reports and
    leaves null for blink and headpose. *)
Theorem fallback_misses_blink_and_headpose_reports :
  Orchestrator.fallback_filename "emotion" = EvaluateEmotion.output_file_main /\
  Orchestrator.fallback_filename "texture" = EvaluateTexture.output_file_main /\
  Orchestrator.fallback_filename "blink" = "blink_evaluation.json"%string /\
  EvaluateBlink.output_file_main = "blink_results.json"%string /\
  Orchestrator.fallback_filename "headpose" = "headpose_evaluation.json"%string /\
  EvaluateHeadpose.output_file_main = "headpose_results.json"%string /\
  Orchestrator.json_file reports_on_disk EvaluateBlink.output_file_main =
    Some (Orchestrator.JObj
            [("written_to"%string, Orchestrator.JStr "blink_results.json")]) /\
  Orchestrator.run_detector reports_on_disk "blink" Orchestrator.PY_VENV
    "evaluate_blink.py" = Returns ("blink"%string, Orchestrator.JNull) /\
  Orchestrator.main reports_on_disk [0; 1; 2; 3]%nat =
    Orchestrator.Printed
      [("emotion"%string,
        Orchestrator.JObj
          [("written_to"%string, Orchestrator.JStr "emotion_evaluation.json")]);
       ("blink"%string, Orchestrator.JNull);
       ("headpose"%string, Orchestrator.JNull);
       ("texture"%string,
        Orchestrator.JObj
          [("written_to"%string, Orchestrator.JStr "texture_evaluation.json")])].
Proof. repeat split; vm_compute; reflexivity. Qed.

(** * Further properties of the code *)

(** ** The blink loop *)

Lemma length_deque_append h e :
  (length h <= 5)%nat ->
  length (BlinkDetector.deque_append 5 h e) = Nat.min 5 (S (length h)).
Proof.
  intros Hh. unfold BlinkDetector.deque_append.
  rewrite length_drop, length_app. cbn [length]. lia.
Qed.

Lemma frame_step_counters max_frames frame_interval n st fr st' :
  blink_counters_ok max_frames frame_interval n st ->
  BlinkDetector.processed_frames st < max_frames ->
  BlinkDetector.frame_step frame_interval st fr = Returns st' ->
  blink_counters_ok max_frames frame_interval (n + 1) st'.
Proof.
  intros (Hp & Hf & Hd & Hb & Hc & Hpot & Hint & Hlen & Hemp) Hlt.
  unfold BlinkDetector.frame_step, BlinkDetector.CONSEC_FRAMES in *.
  destruct (Z.eqb_spec frame_interval 0) as [|Hne]; [discriminate|].
  destruct (Z.eqb_spec ((BlinkDetector.frame_count st + 1) mod frame_interval) 0)
    as [Hmod|Hmod]; cbn [negb].
  - assert (Hmul : 0 < frame_interval ->
                   (BlinkDetector.processed_frames st + 1) * frame_interval
                   <= BlinkDetector.frame_count st + 1).
    { intros Hpos. specialize (Hint Hpos).
      pose proof (Z.div_mod (BlinkDetector.frame_count st + 1) frame_interval Hne) as Hdm.
      rewrite Hmod, Z.add_0_r in Hdm.
      set (q := (BlinkDetector.frame_count st + 1) / frame_interval) in *.
      assert (BlinkDetector.processed_frames st < q).
      { apply (Z.mul_lt_mono_pos_r frame_interval); lia. }
      nia. }
    destruct fr as [ear|].
    + destruct (BlinkDetector.blink_step _ ear) as [bc c] eqn:E.
      intros [= <-]. unfold BlinkDetector.blink_step, BlinkDetector.CONSEC_FRAMES in E.
      unfold blink_counters_ok, BlinkDetector.CONSEC_FRAMES.
      cbn [BlinkDetector.processed_frames BlinkDetector.frame_count
           BlinkDetector.debug_frames_saved BlinkDetector.blink_count
           BlinkDetector.counter BlinkDetector.ear_history].
      pose proof (length_deque_append (BlinkDetector.ear_history st) ear Hlen) as Hl.
      assert (bc >= 0 /\ c >= 0 /\
              3 * bc + c <= BlinkDetector.debug_frames_saved st + 1) as (? & ? & ?).
      { destruct (Qltb ear BlinkDetector.EAR_THRESHOLD); [injection E as <- <-; lia|].
        destruct (Z.leb_spec 2 (BlinkDetector.counter st)); injection E as <- <-; lia. }
      repeat split; try lia; try (apply Hmul; assumption).
      * intros Hnil. rewrite Hnil in Hl. cbn in Hl. lia.
    + intros [= <-]. unfold blink_counters_ok, BlinkDetector.CONSEC_FRAMES.
      cbn [BlinkDetector.processed_frames BlinkDetector.frame_count
           BlinkDetector.debug_frames_saved BlinkDetector.blink_count
           BlinkDetector.counter BlinkDetector.ear_history].
      repeat split; try lia; try tauto; try (apply Hmul; assumption).
  - intros [= <-]. unfold blink_counters_ok, BlinkDetector.CONSEC_FRAMES.
    cbn [BlinkDetector.processed_frames BlinkDetector.frame_count
         BlinkDetector.debug_frames_saved BlinkDetector.blink_count
         BlinkDetector.counter BlinkDetector.ear_history].
    repeat split; try lia; try tauto.
Qed.

Lemma loop_counters max_frames frame_interval frames : forall n st st',
  blink_counters_ok max_frames frame_interval n st ->
  BlinkDetector.loop max_frames frame_interval frames st = Returns st' ->
  blink_counters_ok max_frames frame_interval (n + Z.of_nat (length frames)) st'.
Proof.
  induction frames as [|fr frames IH]; intros n st st' Hok Hloop.
  - injection Hloop as <-. cbn [length]. rewrite Z.add_0_r. exact Hok.
  - cbn [BlinkDetector.loop] in Hloop.
    destruct (Z.ltb_spec (BlinkDetector.processed_frames st) max_frames) as [Hlt|Hge].
    + destruct (BlinkDetector.frame_step frame_interval st fr) as [st1|err] eqn:Hs;
        cbn [mbind outcome_bind] in Hloop; [|discriminate].
      pose proof (frame_step_counters _ _ _ _ _ _ Hok Hlt Hs) as Hok1.
      specialize (IH _ _ _ Hok1 Hloop).
      replace (n + Z.of_nat (length (fr :: frames)))
        with (n + 1 + Z.of_nat (length frames)) by (cbn [length]; lia).
      exact IH.
    + injection Hloop as <-.
      destruct Hok as (Hp & Hf & Hrest). split; [exact Hp|]. split; [|exact Hrest].
      cbn [length]. lia.
Qed.

(** X1.  Whatever the frames and the arguments, when the blink loop ends its
    counters are consistent: at most [max_frames] frames were processed and
    no more frames were counted than the video has; measured frames are
    among the processed ones; each counted blink used up at least
    [CONSEC_FRAMES + 1] measured frames; with a positive [frame_interval],
    [processed_frames × frame_interval] never exceeds the frames read; the
    EAR window holds at most 5 values and is empty exactly when no frame was
    measured. *)
Theorem blink_loop_counters_consistent
  (max_frames frame_interval : Z) (frames : list (option Q))
  (st : BlinkDetector.loop_state) :
  BlinkDetector.loop max_frames frame_interval frames BlinkDetector.init_state
    = Returns st ->
  blink_counters_ok max_frames frame_interval (Z.of_nat (length frames)) st.
Proof.
  intros Hloop.
  apply (loop_counters max_frames frame_interval frames 0
           BlinkDetector.init_state st); [|exact Hloop].
  unfold blink_counters_ok, BlinkDetector.CONSEC_FRAMES. cbn.
  repeat split; try lia.
Qed.

Lemma blink_loop_counters_consistent_witness :
  exists st,
    BlinkDetector.loop 2 1 [Some 0.2; None; Some 0.3; Some 0.1]%Q
      BlinkDetector.init_state = Returns st /\
    BlinkDetector.processed_frames st = 2 /\
    blink_counters_ok 2 1 4 st.
Proof.
  eexists. split; [reflexivity|]. split; [reflexivity|].
  apply (blink_loop_counters_consistent 2 1 [Some 0.2; None; Some 0.3; Some 0.1]%Q).
  reflexivity.
Defined.

(** ** What the blink loop looks at *)

Lemma omap_id_cons_Some (e : Q) (l : list (option Q)) :
  omap id (Some e :: l) = e :: omap id l.
Proof. reflexivity. Qed.

Lemma omap_id_cons_None (l : list (option Q)) :
  omap id (None :: l) = omap id l.
Proof. reflexivity. Qed.

Lemma loop_sees max_frames frame_interval frames :
  frame_interval <> 0 ->
  forall st,
  exists st',
    BlinkDetector.loop max_frames frame_interval frames st = Returns st' /\
    let S := take (Z.to_nat (max_frames - BlinkDetector.processed_frames st))
               (sampled_from frame_interval (BlinkDetector.frame_count st) frames) in
    BlinkDetector.processed_frames st' =
      BlinkDetector.processed_frames st + Z.of_nat (length S) /\
    (BlinkDetector.blink_count st', BlinkDetector.counter st') =
      foldl BlinkDetector.blink_step
        (BlinkDetector.blink_count st, BlinkDetector.counter st) (omap id S) /\
    BlinkDetector.ear_history st' =
      foldl (BlinkDetector.deque_append 5) (BlinkDetector.ear_history st) (omap id S) /\
    BlinkDetector.debug_frames_saved st' =
      BlinkDetector.debug_frames_saved st + Z.of_nat (length (omap id S)).
Proof.
  intros Hne. induction frames as [|fr frames IH]; intros st.
  - exists st. split; [reflexivity|]. cbv zeta. cbn [sampled_from].
    rewrite take_nil. cbn. repeat split; lia.
  - cbn [BlinkDetector.loop sampled_from].
    destruct (Z.ltb_spec (BlinkDetector.processed_frames st) max_frames) as [Hlt|Hge].
    + unfold BlinkDetector.frame_step.
      destruct (Z.eqb_spec frame_interval 0) as [|_]; [contradiction|].
      destruct ((BlinkDetector.frame_count st + 1) mod frame_interval =? 0) eqn:Hmod;
        cbn [negb].
      * assert (Hn : Z.to_nat (max_frames - BlinkDetector.processed_frames st) =
                     S (Z.to_nat (max_frames - (BlinkDetector.processed_frames st + 1))))
          by lia.
        rewrite Hn. cbn [take].
        destruct fr as [e|].
        -- destruct (BlinkDetector.blink_step _ e) as [bc c] eqn:E.
           cbn [mbind outcome_bind].
           match goal with |- context [BlinkDetector.loop _ _ _ ?s] =>
             destruct (IH s) as (st' & Hl & Hp & Hc & Hh & Hd) end.
           cbn [BlinkDetector.processed_frames BlinkDetector.frame_count
                BlinkDetector.blink_count BlinkDetector.counter
                BlinkDetector.ear_history BlinkDetector.debug_frames_saved] in *.
           exists st'. split; [exact Hl|]. cbv zeta.
           rewrite omap_id_cons_Some. cbn [foldl length]. rewrite E.
           repeat split; try assumption; lia.
        -- cbn [mbind outcome_bind].
           match goal with |- context [BlinkDetector.loop _ _ _ ?s] =>
             destruct (IH s) as (st' & Hl & Hp & Hc & Hh & Hd) end.
           cbn [BlinkDetector.processed_frames BlinkDetector.frame_count
                BlinkDetector.blink_count BlinkDetector.counter
                BlinkDetector.ear_history BlinkDetector.debug_frames_saved] in *.
           exists st'. split; [exact Hl|]. cbv zeta.
           rewrite omap_id_cons_None. cbn [length].
           repeat split; try assumption; lia.
      * cbn [mbind outcome_bind].
        match goal with |- context [BlinkDetector.loop _ _ _ ?s] =>
          destruct (IH s) as (st' & Hl & Hp & Hc & Hh & Hd) end.
        cbn [BlinkDetector.processed_frames BlinkDetector.frame_count
             BlinkDetector.blink_count BlinkDetector.counter
             BlinkDetector.ear_history BlinkDetector.debug_frames_saved] in *.
        exists st'. split; [exact Hl|]. cbv zeta.
        repeat split; assumption.
    + exists st. split; [reflexivity|]. cbv zeta.
      replace (Z.to_nat (max_frames - BlinkDetector.processed_frames st)) with 0%nat by lia.
      rewrite take_0. cbn. repeat split; lia.
Qed.

Lemma last_n_snoc l e :
  BlinkDetector.deque_append 5 (last_n 5 l) e = last_n 5 (l ++ [e]).
Proof.
  unfold BlinkDetector.deque_append, last_n.
  rewrite !length_app, length_drop. cbn [length].
  destruct (Nat.le_gt_cases (length l) 5) as [Hle|Hgt].
  - replace (length l - 5)%nat with 0%nat by lia. rewrite drop_0.
    f_equal. lia.
  - rewrite drop_app_le by (rewrite length_drop; lia).
    rewrite drop_drop.
    rewrite (drop_app_le l) by lia.
    f_equal. f_equal. lia.
Qed.

Lemma window_is_last_n m : forall seen,
  foldl (BlinkDetector.deque_append 5) (last_n 5 seen) m = last_n 5 (seen ++ m).
Proof.
  induction m as [|e m IH]; intros seen; cbn [foldl].
  - by rewrite app_nil_r.
  - rewrite last_n_snoc, IH. by rewrite <- app_assoc.
Qed.

(** X2.  For every non-zero [frame_interval], the blink loop ends normally
    and has looked at exactly every [frame_interval]-th frame of the video,
    up to [max_frames] of them: [processed_frames] is their number,
    [debug_frames_saved] the number of them that show a face, and the blink
    counter is the debounced counter run over their EAR measurements. *)
Theorem blink_loop_samples_every_nth_frame
  (max_frames frame_interval : Z) (frames : list (option Q)) :
  frame_interval <> 0 ->
  exists st,
    BlinkDetector.loop max_frames frame_interval frames BlinkDetector.init_state
      = Returns st /\
    BlinkDetector.processed_frames st =
      Z.of_nat (length (processed_by max_frames frame_interval frames)) /\
    BlinkDetector.debug_frames_saved st =
      Z.of_nat (length (measured_by max_frames frame_interval frames)) /\
    (BlinkDetector.blink_count st, BlinkDetector.counter st) =
      blinks_after (measured_by max_frames frame_interval frames).
Proof.
  intros Hne.
  destruct (loop_sees max_frames frame_interval frames Hne BlinkDetector.init_state)
    as (st & Hl & Hp & Hc & _ & Hd).
  cbn [BlinkDetector.processed_frames BlinkDetector.frame_count
       BlinkDetector.init_state BlinkDetector.blink_count BlinkDetector.counter
       BlinkDetector.debug_frames_saved] in *.
  rewrite Z.sub_0_r in *.
  exists st. unfold measured_by, processed_by, blinks_after.
  repeat split; try assumption; lia.
Qed.

Lemma blink_loop_samples_every_nth_frame_witness :
  measured_by 100 3 [Some 0.1; None; Some 0.2; Some 0.3; Some 0.1; None; Some 0.4]%Q
    = [0.2]%Q /\
  exists st,
    BlinkDetector.loop 100 3
      [Some 0.1; None; Some 0.2; Some 0.3; Some 0.1; None; Some 0.4]%Q
      BlinkDetector.init_state = Returns st /\
    BlinkDetector.processed_frames st = 2 /\
    BlinkDetector.debug_frames_saved st = 1.
Proof.
  split; [reflexivity|].
  destruct (blink_loop_samples_every_nth_frame 100 3
              [Some 0.1; None; Some 0.2; Some 0.3; Some 0.1; None; Some 0.4]%Q)
    as (st & Hl & Hp & Hd & _); [discriminate|].
  exists st. split; [exact Hl|]. split; [exact Hp | exact Hd].
Defined.

(** X3.  For every non-zero [frame_interval], the EAR window the blink
    statistics are computed from holds the last five measurements the loop
    took (all of them when there are fewer), in order. *)
Theorem blink_window_is_last_five
  (max_frames frame_interval : Z) (frames : list (option Q)) :
  frame_interval <> 0 ->
  exists st,
    BlinkDetector.loop max_frames frame_interval frames BlinkDetector.init_state
      = Returns st /\
    BlinkDetector.ear_history st =
      last_n 5 (measured_by max_frames frame_interval frames).
Proof.
  intros Hne.
  destruct (loop_sees max_frames frame_interval frames Hne BlinkDetector.init_state)
    as (st & Hl & _ & _ & Hh & _).
  cbn [BlinkDetector.processed_frames BlinkDetector.frame_count
       BlinkDetector.init_state BlinkDetector.ear_history] in *.
  rewrite Z.sub_0_r in *.
  exists st. split; [exact Hl|]. rewrite Hh.
  change (@nil Q) with (last_n 5 []). by rewrite window_is_last_n.
Qed.

Lemma blink_window_is_last_five_witness :
  exists st,
    BlinkDetector.loop 100 1
      (map Some [0.1; 0.2; 0.3; 0.4; 0.5; 0.6; 0.7]%Q)
      BlinkDetector.init_state = Returns st /\
    BlinkDetector.ear_history st = [0.3; 0.4; 0.5; 0.6; 0.7]%Q.
Proof.
  destruct (blink_window_is_last_five 100 1
              (map Some [0.1; 0.2; 0.3; 0.4; 0.5; 0.6; 0.7]%Q))
    as (st & Hl & Hh); [discriminate|].
  exists st. split; [exact Hl | exact Hh].
Defined.

(** ** The blink heuristic and the detector's outcomes *)

Ltac q_absurd :=
  exfalso;
  match goal with
  | H1 : (?a < ?b)%Q, H2 : (?b <= ?a)%Q |- _ => exact (Qlt_not_le _ _ H1 H2)
  | H1 : (?a < ?b)%Q, H2 : (?b < ?c)%Q |- _ =>
      let X := fresh in pose proof (Qlt_trans _ _ _ H1 H2) as X; discriminate X
  end.

Ltac q_cases b H :=
  destruct b eqn:H; [apply Qltb_lt in H | apply Qltb_ge in H].

(** X4.  The blink heuristic reports each reason exactly when its condition
    holds: [low_blink_rate] when the rate is below 5, [high_blink_rate] when
    it is above 50, [low_ear_variance] when the deviation is below 0.008,
    [abnormal_ear] when the mean is below 0.12 or above 0.38.  It never
    reports both rate reasons, never repeats a reason, and flags the video
    exactly when it reports at least one reason. *)
Theorem blink_heuristic_reasons_characterised (rate std avg : Q) :
  let '(suspicious, reasons) := BlinkDetector.heuristic rate std avg in
  ("low_blink_rate"%string ∈ reasons <-> (rate < 5)%Q) /\
  ("high_blink_rate"%string ∈ reasons <-> (50 < rate)%Q) /\
  ("low_ear_variance"%string ∈ reasons <-> (std < 0.008)%Q) /\
  ("abnormal_ear"%string ∈ reasons <-> (avg < 0.12)%Q \/ (0.38 < avg)%Q) /\
  ~ ("low_blink_rate"%string ∈ reasons /\ "high_blink_rate"%string ∈ reasons) /\
  NoDup reasons /\
  (suspicious = true <-> reasons <> []).
Proof.
  unfold BlinkDetector.heuristic.
  q_cases (Qltb rate 5) H1; q_cases (Qltb 50 rate) H2; try q_absurd;
    q_cases (Qltb std 0.008) H3; q_cases (Qltb avg 0.12) H4;
    q_cases (Qltb 0.38 avg) H5; try q_absurd;
    cbn [orb app];
    (split; [|split; [|split; [|split; [|split; [|split]]]]]);
    first
      [ repeat (apply NoDup_cons_2;
                [rewrite ?elem_of_cons, ?elem_of_nil; intuition discriminate|]);
        apply NoDup_nil_2
      | rewrite ?elem_of_cons, ?elem_of_nil;
        intuition (first [discriminate | congruence | q_absurd | eauto]) ].
Qed.

Lemma loop_measures max_frames frame_interval frames :
  frame_interval <> 0 ->
  exists st,
    BlinkDetector.loop max_frames frame_interval frames BlinkDetector.init_state
      = Returns st /\
    BlinkDetector.processed_frames st =
      Z.of_nat (length (processed_by max_frames frame_interval frames)) /\
    BlinkDetector.blink_count st =
      (blinks_after (measured_by max_frames frame_interval frames)).1 /\
    BlinkDetector.ear_history st =
      last_n 5 (measured_by max_frames frame_interval frames).
Proof.
  intros Hne.
  destruct (loop_sees max_frames frame_interval frames Hne BlinkDetector.init_state)
    as (st & Hl & Hp & Hc & Hh & _).
  cbn [BlinkDetector.processed_frames BlinkDetector.frame_count
       BlinkDetector.init_state BlinkDetector.blink_count BlinkDetector.counter
       BlinkDetector.ear_history] in *.
  rewrite Z.sub_0_r in *.
  exists st. unfold measured_by, processed_by, blinks_after.
  split; [exact Hl|]. split; [lia|]. split.
  - by rewrite <- Hc.
  - rewrite Hh. change (@nil Q) with (last_n 5 []). by rewrite window_is_last_n.
Qed.

Lemma last_n_nil_iff (m : list Q) : last_n 5 m = [] <-> m = [].
Proof.
  unfold last_n. split; [|by intros ->].
  intros H. apply (f_equal length) in H. rewrite length_drop in H. cbn in H.
  destruct m; [done | cbn [length] in H; lia].
Qed.

(** X5.  What [analyze_blink] returns.  A video that cannot be opened gives
    the failure [cannot_open_video], whatever the arguments.  For an opened
    video and a non-zero [frame_interval]: when none of the frames the loop
    looks at shows a face the result is the failure [no_faces_detected];
    otherwise it is a success whose [blink_count] is the debounced count over
    the measurements, whose [processed_frames] counts the frames looked at,
    and whose [avg_ear] and [std_ear] are taken over the last five
    measurements only. *)
Theorem analyze_blink_outcomes
  (sqrt : Q -> Q) (v : BlinkDetector.video) (max_frames frame_interval : Z) :
  (BlinkDetector.opened v = false ->
   BlinkDetector.analyze_blink sqrt v max_frames frame_interval
     = Returns (failure "cannot_open_video")) /\
  (BlinkDetector.opened v = true -> frame_interval <> 0 ->
   let m := measured_by max_frames frame_interval (BlinkDetector.frames v) in
   (m = [] ->
    BlinkDetector.analyze_blink sqrt v max_frames frame_interval
      = Returns (failure "no_faces_detected")) /\
   (m <> [] ->
    exists d,
      BlinkDetector.analyze_blink sqrt v max_frames frame_interval = Returns d /\
      d !! "success" = Some (PBool true) /\
      d !! "blink_count" = Some (PInt (blinks_after m).1) /\
      d !! "processed_frames" =
        Some (PInt (Z.of_nat (length (processed_by max_frames frame_interval
                                        (BlinkDetector.frames v))))) /\
      d !! "avg_ear" = Some (PFloat (mean (last_n 5 m))) /\
      d !! "std_ear" = Some (PFloat (sqrt (var (last_n 5 m)))))).
Proof.
  unfold BlinkDetector.analyze_blink, failure. split.
  - intros ->. reflexivity.
  - intros -> Hne. cbv zeta. cbn [negb].
    destruct (loop_measures max_frames frame_interval (BlinkDetector.frames v) Hne)
      as (st & Hl & Hp & Hb & Hh).
    rewrite Hl. cbn [mbind outcome_bind]. rewrite Hh, Hp, Hb. split.
    + intros ->. reflexivity.
    + intros Hm.
      destruct (last_n 5 _) as [|e0 h] eqn:Hw; [apply (proj1 (last_n_nil_iff _)) in Hw; contradiction|].
      destruct (BlinkDetector.heuristic _ _ _) as [s r].
      eexists. split; [reflexivity|].
      unfold BlinkDetector.np_std. by simplify_map_eq.
Qed.

Lemma analyze_blink_outcomes_witness :
  BlinkDetector.analyze_blink approx_sqrt
    {| BlinkDetector.opened := true;
       BlinkDetector.frames := [Some 0.3; Some 0.3; None; Some 0.3]%Q |} 100 3
  = Returns (failure "no_faces_detected").
Proof.
  apply (proj2 (analyze_blink_outcomes approx_sqrt
           {| BlinkDetector.opened := true;
              BlinkDetector.frames := [Some 0.3; Some 0.3; None; Some 0.3]%Q |}
           100 3)).
  - reflexivity.
  - discriminate.
  - reflexivity.
Defined.



(** ** The reported blink rate *)





(** ** The head-pose detector *)

Lemma headpose_foldl arctan2 save_debug max_debug_frames frames : forall st,
  let st' := foldl (HeadposeDetector.frame_step arctan2 save_debug max_debug_frames)
               st frames in
  HeadposeDetector.pitch_vals st' =
    HeadposeDetector.pitch_vals st ++ map pitch_of (faces_of frames) /\
  HeadposeDetector.yaw_vals st' =
    HeadposeDetector.yaw_vals st ++ map yaw_of (faces_of frames) /\
  HeadposeDetector.roll_vals st' =
    HeadposeDetector.roll_vals st ++ map (roll_of arctan2) (faces_of frames) /\
  HeadposeDetector.total_frames st' =
    HeadposeDetector.total_frames st + Z.of_nat (length frames) /\
  (0 <= HeadposeDetector.debug_frame_id st <= Z.max 0 max_debug_frames ->
   HeadposeDetector.debug_frame_id st' =
     if save_debug
     then Z.min (HeadposeDetector.debug_frame_id st + Z.of_nat (length (faces_of frames)))
            (Z.max 0 max_debug_frames)
     else HeadposeDetector.debug_frame_id st).
Proof.
  induction frames as [|fr frames IH]; intros st; cbv zeta.
  - change (faces_of []) with (@nil HeadposeDetector.face).
    cbn [foldl map length]. rewrite !app_nil_r.
    split; [reflexivity|]. split; [reflexivity|]. split; [reflexivity|].
    split; [lia|]. intros H. destruct save_debug; lia.
  - cbn [foldl]. specialize (IH (HeadposeDetector.frame_step arctan2 save_debug
                                   max_debug_frames st fr)).
    cbv zeta in IH. destruct IH as (Hp & Hy & Hr & Ht & Hd).
    rewrite Hp, Hy, Hr, Ht. unfold HeadposeDetector.frame_step in *.
    destruct fr as [f|];
      cbn [HeadposeDetector.pitch_vals HeadposeDetector.yaw_vals
           HeadposeDetector.roll_vals HeadposeDetector.total_frames
           HeadposeDetector.debug_frame_id] in *.
    + change (faces_of (Some f :: frames)) with (f :: faces_of frames).
      cbn [map length]. rewrite <- !app_assoc. cbn [app].
      split; [reflexivity|]. split; [reflexivity|]. split; [reflexivity|].
      split; [lia|]. intros Hb. rewrite Hd.
      * destruct save_debug; cbn [andb]; [|reflexivity].
        destruct (Z.ltb_spec (HeadposeDetector.debug_frame_id st) max_debug_frames); lia.
      * destruct save_debug; cbn [andb]; [|lia].
        destruct (Z.ltb_spec (HeadposeDetector.debug_frame_id st) max_debug_frames); lia.
    + change (faces_of (None :: frames)) with (faces_of frames).
      split; [reflexivity|]. split; [reflexivity|]. split; [reflexivity|].
      split; [cbn [length]; lia|]. exact Hd.
Qed.

Lemma headpose_loop arctan2 save_debug max_debug_frames frames :
  let st := HeadposeDetector.loop arctan2 save_debug max_debug_frames frames in
  HeadposeDetector.pitch_vals st = map pitch_of (faces_of frames) /\
  HeadposeDetector.yaw_vals st = map yaw_of (faces_of frames) /\
  HeadposeDetector.roll_vals st = map (roll_of arctan2) (faces_of frames) /\
  HeadposeDetector.total_frames st = Z.of_nat (length frames) /\
  HeadposeDetector.debug_frame_id st =
    debug_frames_for save_debug max_debug_frames (length (faces_of frames)).
Proof.
  cbv zeta. unfold HeadposeDetector.loop, debug_frames_for.
  destruct (headpose_foldl arctan2 save_debug max_debug_frames frames
              HeadposeDetector.init_state) as (Hp & Hy & Hr & Ht & Hd).
  cbn [HeadposeDetector.init_state HeadposeDetector.pitch_vals
       HeadposeDetector.yaw_vals HeadposeDetector.roll_vals
       HeadposeDetector.total_frames HeadposeDetector.debug_frame_id app] in *.
  repeat split; try assumption; try lia.
  rewrite Hd by lia. destruct save_debug; [f_equal; lia | reflexivity].
Qed.

(** X8.  What [analyze_headpose] returns.  A video that cannot be opened
    gives the failure [cannot_open_video]; an opened video in which no frame
    shows a face gives the failure [no_face_detected]; any other video gives
    a success whose [frames_analyzed] is the number of frames with a face,
    whose [total_video_frames] is the number of frames, and whose
    [debug_frames_saved] is the number of faces capped at
    [max_debug_frames] (0 when [save_debug] is off). *)
Theorem analyze_headpose_outcomes
  (arctan2 : Q -> Q -> Q) (sqrt : Q -> Q) (v : HeadposeDetector.video)
  (save_debug : bool) (max_debug_frames : Z) :
  let d := HeadposeDetector.analyze_headpose arctan2 sqrt v save_debug max_debug_frames in
  let faces := faces_of (HeadposeDetector.frames v) in
  (HeadposeDetector.opened v = false -> d = failure "cannot_open_video") /\
  (HeadposeDetector.opened v = true -> faces = [] -> d = failure "no_face_detected") /\
  (HeadposeDetector.opened v = true -> faces <> [] ->
   d !! "success" = Some (PBool true) /\
   d !! "frames_analyzed" = Some (PInt (Z.of_nat (length faces))) /\
   d !! "total_video_frames" =
     Some (PInt (Z.of_nat (length (HeadposeDetector.frames v)))) /\
   d !! "debug_frames_saved" =
     Some (PInt (debug_frames_for save_debug max_debug_frames (length faces))) /\
   d !! "avg_pitch" = Some (PFloat (mean (map pitch_of faces))) /\
   d !! "avg_yaw" = Some (PFloat (mean (map yaw_of faces)))).
Proof.
  cbv zeta. unfold HeadposeDetector.analyze_headpose, failure.
  destruct (headpose_loop arctan2 save_debug max_debug_frames
              (HeadposeDetector.frames v)) as (Hp & Hy & Hr & Ht & Hd).
  cbv zeta in *.
  split; [by intros ->|]. split.
  - intros -> Hf. cbn [negb]. rewrite Hp, Hf. reflexivity.
  - intros -> Hf. cbn [negb]. rewrite Ht, Hd, Hy, Hp.
    destruct (faces_of (HeadposeDetector.frames v)) as [|f fs] eqn:E; [done|].
    cbn [map]. destruct (HeadposeDetector.heuristic _) as [s r].
    simplify_map_eq. cbn [length]. rewrite ?length_map. done.
Qed.

Lemma analyze_headpose_outcomes_witness :
  let face0 :=
    {| HeadposeDetector.nose := {| HeadposeDetector.x := 0.5; HeadposeDetector.y := 0.5 |};
       HeadposeDetector.left_eye := {| HeadposeDetector.x := 0.4; HeadposeDetector.y := 0.4 |};
       HeadposeDetector.right_eye := {| HeadposeDetector.x := 0.6; HeadposeDetector.y := 0.4 |} |} in
  let d :=
    HeadposeDetector.analyze_headpose (fun _ _ => 0%Q) approx_sqrt
      {| HeadposeDetector.opened := true;
         HeadposeDetector.frames := [Some face0; None; Some face0; Some face0] |}
      true 2 in
  d !! "frames_analyzed" = Some (PInt 3) /\
  d !! "total_video_frames" = Some (PInt 4) /\
  d !! "debug_frames_saved" = Some (PInt 2).
Proof.
  intros face0 d.
  destruct (analyze_headpose_outcomes (fun _ _ => 0%Q) approx_sqrt
              {| HeadposeDetector.opened := true;
                 HeadposeDetector.frames := [Some face0; None; Some face0; Some face0] |}
              true 2) as (_ & _ & H).
  destruct (H eq_refl) as (_ & Hf & Ht & Hd & _); [discriminate|].
  split; [exact Hf|]. split; [exact Ht | exact Hd].
Defined.

(** ** The head-pose heuristic on motion statistics *)

(** X9.  The head-pose heuristic reports [too_smooth_motion] exactly when the
    speed variance is a number below 1e-6 and [jittery_motion] exactly when
    it is a number above 0.01; it never reports both, reports nothing when
    the variance is [nan], and flags the video exactly when it reports a
    reason. *)
Theorem headpose_heuristic_reasons_characterised
  (speed_variance : HeadposeDetector.npfloat) :
  let '(suspicious, reasons) := HeadposeDetector.heuristic speed_variance in
  ("too_smooth_motion"%string ∈ reasons <->
   exists q, speed_variance = HeadposeDetector.Fin q /\ (q < 0.000001)%Q) /\
  ("jittery_motion"%string ∈ reasons <->
   exists q, speed_variance = HeadposeDetector.Fin q /\ (0.01 < q)%Q) /\
  (length reasons <= 1)%nat /\
  (speed_variance = HeadposeDetector.NaN -> reasons = []) /\
  (suspicious = true <-> reasons <> []).
Proof.
  unfold HeadposeDetector.heuristic.
  destruct speed_variance as [q|]; cbn [HeadposeDetector.np_lt HeadposeDetector.np_gt].
  - q_cases (Qltb q 0.000001) H1; q_cases (Qltb 0.01 q) H2; try q_absurd;
      cbn [app length];
      (split; [|split; [|split; [|split]]]);
      rewrite ?elem_of_cons, ?elem_of_nil;
      try lia; try discriminate;
      try (split; [intros _; eexists; split; [reflexivity | eassumption]
                  | intros _; auto]; fail);
      try (split; [intros [H|[]]; discriminate
                  | intros (q' & [= <-] & Hq); q_absurd]; fail);
      try (split; [intros []
                  | intros (q' & [= <-] & Hq); q_absurd]; fail);
      try (split; congruence).
  - cbn [length]. split; [|split; [|split; [|split]]];
      rewrite ?elem_of_nil; try lia; try done;
      try (split; [intros [] | intros (q' & Hq & _); discriminate]).
Qed.

Lemma sumQ_replicate (k : nat) (x : Q) :
  (sumQ (replicate k x) == inject_Z (Z.of_nat k) * x)%Q.
Proof.
  induction k as [|k IH].
  - cbn. ring.
  - cbn [replicate sumQ foldr]. fold (sumQ (replicate k x)).
    rewrite IH, Nat2Z.inj_succ, <- Z.add_1_l, inject_Z_plus. ring.
Qed.

Lemma mean_replicate (k : nat) (x : Q) : (mean (replicate (S k) x) == x)%Q.
Proof.
  unfold mean. rewrite sumQ_replicate, length_replicate.
  rewrite Qmult_comm. apply Qdiv_mult_l.
  change 0%Q with (inject_Z 0). rewrite inject_Z_injective. lia.
Qed.

Lemma map_replicate_list {A B} (f : A -> B) (k : nat) (x : A) :
  map f (replicate k x) = replicate k (f x).
Proof. induction k as [|k IH]; cbn; [done | by rewrite IH]. Qed.

Lemma var_replicate (k : nat) (x : Q) : (var (replicate (S k) x) == 0)%Q.
Proof.
  unfold var. rewrite map_replicate_list, mean_replicate.
  rewrite mean_replicate. ring.
Qed.

Lemma np_stack_replicate (k : nat) (p w r : Q) :
  HeadposeDetector.np_stack (replicate k p) (replicate k w) (replicate k r) =
  replicate k (p, w, r).
Proof. induction k as [|k IH]; cbn; [done | by rewrite IH]. Qed.

Lemma np_diff_replicate (k : nat) (p w r : Q) :
  HeadposeDetector.np_diff (replicate (S k) (p, w, r)) =
  replicate k ((p - p)%Q, (w - w)%Q, (r - r)%Q).
Proof.
  induction k as [|k IH]; [reflexivity|].
  change (replicate (S (S k)) (p, w, r))
    with ((p, w, r) :: replicate (S k) (p, w, r)).
  cbn [HeadposeDetector.np_diff]. cbn [replicate] in *. by rewrite IH.
Qed.

(** ** Head-pose edge cases *)

(** X10.  A video in which exactly one frame shows a face has no speed
    sample: [analyze_headpose] reports [speed_variance] and [avg_speed] as
    [nan], no comparison with [nan] holds, so the result is never suspicious
    and the head-pose wrapper predicts REAL with confidence 0.9. *)
Theorem headpose_single_face_is_real
  (arctan2 : Q -> Q -> Q) (sqrt : Q -> Q) (v : HeadposeDetector.video)
  (save_debug : bool) (max_debug_frames : Z) (path : string)
  (f : HeadposeDetector.face) :
  HeadposeDetector.opened v = true ->
  faces_of (HeadposeDetector.frames v) = [f] ->
  let d := HeadposeDetector.analyze_headpose arctan2 sqrt v save_debug max_debug_frames in
  d !! "success" = Some (PBool true) /\
  d !! "speed_variance" = Some PNaN /\
  d !! "avg_speed" = Some PNaN /\
  d !! "suspicious" = Some (PBool false) /\
  d !! "reasons" = Some (PList []) /\
  decided (EvaluateHeadpose.decision path (Returns d)) d Evaluator.REAL 0.9.
Proof.
  intros Ho Hf. cbv zeta.
  assert (Hd : HeadposeDetector.analyze_headpose arctan2 sqrt v save_debug
                 max_debug_frames !! "success" = Some (PBool true) /\
               HeadposeDetector.analyze_headpose arctan2 sqrt v save_debug
                 max_debug_frames !! "speed_variance" = Some PNaN /\
               HeadposeDetector.analyze_headpose arctan2 sqrt v save_debug
                 max_debug_frames !! "avg_speed" = Some PNaN /\
               HeadposeDetector.analyze_headpose arctan2 sqrt v save_debug
                 max_debug_frames !! "suspicious" = Some (PBool false) /\
               HeadposeDetector.analyze_headpose arctan2 sqrt v save_debug
                 max_debug_frames !! "reasons" = Some (PList [])).
  { unfold HeadposeDetector.analyze_headpose. rewrite Ho. cbn [negb].
    destruct (headpose_loop arctan2 save_debug max_debug_frames
                (HeadposeDetector.frames v)) as (Hp & Hy & Hr & _ & _).
    cbv zeta in *. rewrite Hp, Hy, Hr, Hf.
    cbn [map HeadposeDetector.np_stack HeadposeDetector.np_diff
         HeadposeDetector.np_var HeadposeDetector.np_mean
         HeadposeDetector.heuristic HeadposeDetector.np_lt HeadposeDetector.np_gt
         HeadposeDetector.to_py].
    by simplify_map_eq. }
  destruct Hd as (Hs & Hv & Ha & Hsus & Hre).
  repeat (split; [assumption|]).
  unfold EvaluateHeadpose.decision, getitem. rewrite Hs, Hsus. cbn [truthy].
  repeat split. apply is_float_refl.
Qed.

Lemma headpose_single_face_is_real_witness :
  let face0 :=
    {| HeadposeDetector.nose := {| HeadposeDetector.x := 0.5; HeadposeDetector.y := 0.5 |};
       HeadposeDetector.left_eye := {| HeadposeDetector.x := 0.4; HeadposeDetector.y := 0.4 |};
       HeadposeDetector.right_eye := {| HeadposeDetector.x := 0.6; HeadposeDetector.y := 0.4 |} |} in
  let v := {| HeadposeDetector.opened := true;
              HeadposeDetector.frames := [None; Some face0; None] |} in
  Evaluator.prediction
    (EvaluateHeadpose.decision "a.mp4"
       (Returns (HeadposeDetector.analyze_headpose (fun _ _ => 0%Q) approx_sqrt v true 100)))
  = Some Evaluator.REAL.
Proof.
  intros face0 v.
  destruct (headpose_single_face_is_real (fun _ _ => 0%Q) approx_sqrt v true 100
              "a.mp4" face0 eq_refl eq_refl) as (_ & _ & _ & _ & _ & Hdec).
  destruct Hdec as (_ & Hp & _). exact Hp.
Defined.

(** X11.  A video whose face does not move at all (every frame with a face
    shows the same landmarks, in at least two frames) has speed variance 0:
    [analyze_headpose] flags it with the single reason [too_smooth_motion]
    and the head-pose wrapper predicts FAKE with confidence 0.8. *)
Theorem headpose_still_face_is_fake
  (arctan2 : Q -> Q -> Q) (sqrt : Q -> Q) (v : HeadposeDetector.video)
  (save_debug : bool) (max_debug_frames : Z) (path : string)
  (f : HeadposeDetector.face) (n : nat) :
  HeadposeDetector.opened v = true ->
  faces_of (HeadposeDetector.frames v) = replicate (S (S n)) f ->
  let d := HeadposeDetector.analyze_headpose arctan2 sqrt v save_debug max_debug_frames in
  d !! "suspicious" = Some (PBool true) /\
  d !! "reasons" = Some (PList [PStr "too_smooth_motion"]) /\
  decided (EvaluateHeadpose.decision path (Returns d)) d Evaluator.FAKE 0.8.
Proof.
  intros Ho Hf. cbv zeta.
  assert (Hd : HeadposeDetector.analyze_headpose arctan2 sqrt v save_debug
                 max_debug_frames !! "success" = Some (PBool true) /\
               HeadposeDetector.analyze_headpose arctan2 sqrt v save_debug
                 max_debug_frames !! "suspicious" = Some (PBool true) /\
               HeadposeDetector.analyze_headpose arctan2 sqrt v save_debug
                 max_debug_frames !! "reasons" =
                 Some (PList [PStr "too_smooth_motion"])).
  { unfold HeadposeDetector.analyze_headpose. rewrite Ho. cbn [negb].
    destruct (headpose_loop arctan2 save_debug max_debug_frames
                (HeadposeDetector.frames v)) as (Hp & Hy & Hr & _ & _).
    cbv zeta in *. rewrite Hp, Hy, Hr, Hf. rewrite !map_replicate_list.
    rewrite np_stack_replicate, np_diff_replicate, map_replicate_list.
    set (s := HeadposeDetector.norm3 sqrt _).
    assert (Hlt : Qltb (var (replicate (S n) s)) 0.000001 = true).
    { apply Qltb_lt. rewrite var_replicate. reflexivity. }
    assert (Hgt : Qltb 0.01 (var (replicate (S n) s)) = false).
    { apply Qltb_ge. rewrite var_replicate. discriminate. }
    unfold HeadposeDetector.heuristic.
    change (HeadposeDetector.np_var (replicate (S n) s))
      with (HeadposeDetector.Fin (var (replicate (S n) s))).
    cbn [HeadposeDetector.np_lt HeadposeDetector.np_gt]. rewrite Hlt, Hgt.
    cbn [replicate]. by simplify_map_eq. }
  destruct Hd as (Hs & Hsus & Hre).
  split; [exact Hsus|]. split; [exact Hre|].
  unfold EvaluateHeadpose.decision, getitem. rewrite Hs, Hsus. cbn [truthy].
  repeat split. apply is_float_refl.
Qed.

Lemma headpose_still_face_is_fake_witness :
  let face0 :=
    {| HeadposeDetector.nose := {| HeadposeDetector.x := 0.5; HeadposeDetector.y := 0.5 |};
       HeadposeDetector.left_eye := {| HeadposeDetector.x := 0.4; HeadposeDetector.y := 0.4 |};
       HeadposeDetector.right_eye := {| HeadposeDetector.x := 0.6; HeadposeDetector.y := 0.4 |} |} in
  let v := {| HeadposeDetector.opened := true;
              HeadposeDetector.frames := [Some face0; None; Some face0; Some face0] |} in
  Evaluator.prediction
    (EvaluateHeadpose.decision "a.mp4"
       (Returns (HeadposeDetector.analyze_headpose (fun _ _ => 0%Q) approx_sqrt v true 100)))
  = Some Evaluator.FAKE.
Proof.
  intros face0 v.
  destruct (headpose_still_face_is_fake (fun _ _ => 0%Q) approx_sqrt v true 100
              "a.mp4" face0 1%nat eq_refl eq_refl) as (_ & _ & Hdec).
  destruct Hdec as (_ & Hp & _). exact Hp.
Defined.

(** ** The texture aggregator *)

Lemma texture_loop_scores v : forall frame_id scores,
  TextureDetector.loop v frame_id scores =
  match scores_of (sampled_texture frame_id v) with
  | Returns r => Returns (scores ++ r)
  | Raises e => Raises e
  end.
Proof.
  induction v as [|fr v IH]; intros frame_id scores;
    cbn [TextureDetector.loop sampled_texture scores_of].
  - by rewrite app_nil_r.
  - destruct (frame_id mod TextureDetector.FRAME_SKIP =? 0).
    + destruct fr as [preds|e]; cbn [mbind outcome_bind scores_of]; [|reflexivity].
      rewrite IH. destruct (scores_of _); [by rewrite app_assoc | reflexivity].
    + apply IH.
Qed.

Lemma sampled_texture_agree v : forall v' frame_id,
  length v = length v' ->
  (forall i : nat, (frame_id + Z.of_nat i) mod TextureDetector.FRAME_SKIP = 0 ->
                   v !! i = v' !! i) ->
  sampled_texture frame_id v = sampled_texture frame_id v'.
Proof.
  induction v as [|fr v IH]; intros [|fr' v'] frame_id Hlen Hagree;
    try discriminate; [reflexivity|].
  cbn [sampled_texture].
  assert (Hrest : sampled_texture (frame_id + 1) v = sampled_texture (frame_id + 1) v').
  { apply IH; [cbn in Hlen; lia|]. intros i Hi.
    apply (Hagree (S i)). rewrite Nat2Z.inj_succ. by replace (frame_id + Z.succ (Z.of_nat i))
      with (frame_id + 1 + Z.of_nat i) by lia. }
  rewrite Hrest.
  destruct (Z.eqb_spec (frame_id mod TextureDetector.FRAME_SKIP) 0) as [Hm|]; [|reflexivity].
  specialize (Hagree 0%nat). cbn in Hagree. rewrite Z.add_0_r in Hagree.
  specialize (Hagree Hm). by injection Hagree as ->.
Qed.

(** X12.  The texture aggregator looks only at the frames whose index is a
    multiple of [FRAME_SKIP] (0, 5, 10, ...): its scores are the scores of
    those frames in order, the first exception among them aborts the loop,
    and two videos of the same length that agree on those frames get the
    same result, whatever their other frames hold. *)
Theorem texture_samples_every_fifth_frame
  (path : string) (v v' : TextureDetector.video) :
  TextureDetector.loop v 0 [] = scores_of (sampled_texture 0 v) /\
  (length v = length v' ->
   (forall i : nat, Z.of_nat i mod TextureDetector.FRAME_SKIP = 0 -> v !! i = v' !! i) ->
   TextureDetector.analyze_texture path v = TextureDetector.analyze_texture path v').
Proof.
  split.
  - rewrite texture_loop_scores. by destruct (scores_of _).
  - intros Hlen Hagree. unfold TextureDetector.analyze_texture.
    rewrite !texture_loop_scores.
    by rewrite (sampled_texture_agree v v' 0 Hlen Hagree).
Qed.

Lemma texture_samples_every_fifth_frame_witness :
  TextureDetector.analyze_texture "a.mp4"
    [Returns [0.9%Q]; Raises "decode"; Returns [0.1%Q]] =
  TextureDetector.analyze_texture "a.mp4"
    [Returns [0.9%Q]; Returns []; Returns []].
Proof.
  apply (proj2 (texture_samples_every_fifth_frame "a.mp4"
                  [Returns [0.9%Q]; Raises "decode"; Returns [0.1%Q]]
                  [Returns [0.9%Q]; Returns []; Returns []])).
  - reflexivity.
  - intros [|[|[|i]]] Hi; try reflexivity; vm_compute in Hi; discriminate.
Defined.

Lemma above_threshold_full scores :
  above_threshold scores = length scores <->
  Forall (fun s => (TextureDetector.THRESHOLD < s)%Q) scores.
Proof.
  unfold above_threshold. induction scores as [|s scores IH].
  - split; [constructor | reflexivity].
  - rewrite filter_cons, Forall_cons.
    pose proof (length_filter (fun s => Qltb TextureDetector.THRESHOLD s = true) scores).
    case_decide as Hs; cbn [length].
    + rewrite <- IH, <- Qltb_lt. split; [intros; split; [done | lia] | intros [_ ?]; lia].
    + split; [lia|]. intros [Hlt _]. apply Qltb_lt in Hlt. contradiction.
Qed.

Lemma above_threshold_none scores :
  above_threshold scores = 0%nat <->
  Forall (fun s => (s <= TextureDetector.THRESHOLD)%Q) scores.
Proof.
  unfold above_threshold. induction scores as [|s scores IH].
  - split; [constructor | reflexivity].
  - rewrite filter_cons, Forall_cons. case_decide as Hs; cbn [length].
    + split; [lia|]. intros [Hle _]. apply Qltb_lt in Hs. q_absurd.
    + rewrite <- IH. apply not_true_is_false, Qltb_ge in Hs. tauto.
Qed.

Lemma ratio_eq_iff (a b c : Z) :
  0 < b -> (inject_Z a / inject_Z b == inject_Z c)%Q <-> a = c * b.
Proof.
  intros Hb. destruct b as [|b|b]; try lia.
  rewrite <- Qmake_Qdiv. unfold Qeq. cbn [Qnum Qden inject_Z]. lia.
Qed.

(** X13.  On a successful texture analysis, [frames_analyzed] is the number
    of scores, and [fake_ratio] lies in [0,1]; it is 1 exactly when every
    score is above [THRESHOLD] and 0 exactly when none is. *)
Theorem texture_fake_ratio_range
  (path : string) (v : TextureDetector.video) (scores : list Q) :
  TextureDetector.loop v 0 [] = Returns scores ->
  scores <> [] ->
  let d := TextureDetector.analyze_texture path v in
  d !! "frames_analyzed" = Some (PInt (Z.of_nat (length scores))) /\
  d !! "frame_scores" = Some (PList (map PFloat scores)) /\
  exists r,
    d !! "fake_ratio" = Some (PFloat r) /\
    (0 <= r <= 1)%Q /\
    ((r == 1)%Q <-> Forall (fun s => (TextureDetector.THRESHOLD < s)%Q) scores) /\
    ((r == 0)%Q <-> Forall (fun s => (s <= TextureDetector.THRESHOLD)%Q) scores).
Proof.
  intros Hl Hne. cbv zeta.
  destruct (analyze_texture_success path v scores Hl Hne) as (_ & _ & Hr & Hn).
  split; [exact Hn|]. split.
  { unfold TextureDetector.analyze_texture. rewrite Hl.
    destruct scores; [done|]. by simplify_map_eq. }
  exists (TextureDetector.fake_ratio_of scores). split; [exact Hr|].
  unfold TextureDetector.fake_ratio_of. fold (above_threshold scores).
  pose proof (above_threshold_le scores) as Hle.
  assert (Hpos : 0 < Z.of_nat (length scores)) by (destruct scores; [done | cbn; lia]).
  split; [split|split].
  - change 0%Q with (inject_Z 0 / inject_Z 1)%Q. apply ratio_le; lia.
  - change 1%Q with (inject_Z 1 / inject_Z 1)%Q. apply ratio_le; lia.
  - change 1%Q with (inject_Z 1). rewrite ratio_eq_iff by exact Hpos.
    rewrite <- above_threshold_full. lia.
  - change 0%Q with (inject_Z 0). rewrite ratio_eq_iff by exact Hpos.
    rewrite <- above_threshold_none. lia.
Qed.

Lemma texture_fake_ratio_range_witness :
  exists r,
    TextureDetector.analyze_texture "a.mp4" [Returns [0.9; 0.7; 0.6]%Q] !! "fake_ratio"
      = Some (PFloat r) /\ (r == 1)%Q.
Proof.
  destruct (texture_fake_ratio_range "a.mp4" [Returns [0.9; 0.7; 0.6]%Q]
              [0.9; 0.7; 0.6]%Q eq_refl) as (_ & _ & r & Hr & _ & Hone & _).
  - discriminate.
  - exists r. split; [exact Hr|]. apply Hone. repeat constructor.
Defined.

(** X14.  Whenever the texture analysis fails (no face in any sampled frame,
    or an exception while handling one), the result names a reason, and the
    texture wrapper returns a verdict with no prediction, no detector result
    and confidence 0 whose error is that reason. *)
Theorem texture_failure_reason_becomes_error
  (path : string) (v : TextureDetector.video) :
  dr_success (TextureDetector.analyze_texture path v) = false ->
  exists reason,
    TextureDetector.analyze_texture path v !! "reason" = Some (PStr reason) /\
    (reason = "no_faces_detected"%string \/
     TextureDetector.loop v 0 [] = Raises reason) /\
    EvaluateTexture.analyze_video (fun _ => v) path =
      Evaluator.set_error (PStr reason) (Evaluator.fresh path).
Proof.
  unfold EvaluateTexture.analyze_video, TextureDetector.analyze_texture, dr_success.
  destruct (TextureDetector.loop v 0 []) as [[|s0 scores]|e] eqn:Hl.
  - intros _. exists "no_faces_detected"%string.
    split; [reflexivity|]. split; [by left | reflexivity].
  - unfold TextureDetector.template. simplify_map_eq. discriminate.
  - intros _. exists e. split; [|split; [by right|]].
    + unfold TextureDetector.template. by simplify_map_eq.
    + unfold EvaluateTexture.decision, getitem, EvaluateTexture.get_reason,
        TextureDetector.template.
      by simplify_map_eq.
Qed.

Lemma texture_failure_reason_becomes_error_witness :
  exists reason,
    TextureDetector.analyze_texture "a.mp4" [Raises "bad frame"] !! "reason"
      = Some (PStr reason) /\
    Evaluator.error (EvaluateTexture.analyze_video (fun _ => [Raises "bad frame"]) "a.mp4")
      = Some (PStr reason).
Proof.
  destruct (texture_failure_reason_becomes_error "a.mp4" [Raises "bad frame"] eq_refl)
    as (reason & Hr & _ & Hv).
  exists reason. split; [exact Hr|]. rewrite Hv. reflexivity.
Defined.

(** ** The wrappers on arbitrary detector outcomes *)

Ltac verdict_cases :=
  cbn [Evaluator.set_error Evaluator.set_prediction
       Evaluator.set_detector_result Evaluator.fresh
       Evaluator.video_path Evaluator.detector_result
       Evaluator.prediction Evaluator.confidence Evaluator.error];
  split; [reflexivity|];
  split; [solve [ intros ? [=]
                | intros ? [= <-]; split; [reflexivity|]; unfold dr_success;
                  match goal with H : _ !! "success" = Some _ |- _ => rewrite H end;
                  assumption ]|];
  split; [solve [ intros H; exfalso; apply H; reflexivity
                | intros _; split; [reflexivity | discriminate] ]|];
  split; [solve [ intros _; reflexivity | intros [=] ]|];
  solve [ intros ? [=] | intros ? [= <-]; reflexivity ].

(** X15.  Whatever its detector returns or raises, each of the four wrappers
    builds a verdict for the same path in which: a detector result is
    attached only if the detector returned it with a true [success]; a
    prediction is present only together with a detector result and without
    an error; a verdict without prediction has confidence 0; and an
    exception of the detector becomes the verdict's error, with nothing else
    set. *)
Theorem wrappers_build_consistent_verdicts
  (path : string) (det : outcome (gmap string pyval)) :
  verdict_consistent path det (EvaluateBlink.decision path det) /\
  verdict_consistent path det (EvaluateHeadpose.decision path det) /\
  verdict_consistent path det (EvaluateEmotion.decision path det) /\
  verdict_consistent path det (EvaluateTexture.decision path det).
Proof.
  split; [|split; [|split]].
  - unfold EvaluateBlink.decision, verdict_consistent, getitem.
    destruct det as [d|e]; [|verdict_cases].
    destruct (d !! "success") as [ok|] eqn:Hs; [|verdict_cases].
    destruct (truthy ok) eqn:Hok; [|verdict_cases].
    destruct (d !! "suspicious") as [s|]; [destruct (truthy s)|]; verdict_cases.
  - unfold EvaluateHeadpose.decision, verdict_consistent, getitem.
    destruct det as [d|e]; [|verdict_cases].
    destruct (d !! "success") as [ok|] eqn:Hs; [|verdict_cases].
    destruct (truthy ok) eqn:Hok; [|verdict_cases].
    destruct (d !! "suspicious") as [s|]; [destruct (truthy s)|]; verdict_cases.
  - unfold EvaluateEmotion.decision, verdict_consistent, getitem.
    destruct det as [d|e]; [|verdict_cases].
    destruct (d !! "success") as [ok|] eqn:Hs; [|verdict_cases].
    destruct (truthy ok) eqn:Hok; cbn [negb]; [|verdict_cases].
    destruct (d !! "suspicious") as [s|]; [destruct (truthy s)|]; verdict_cases.
  - unfold EvaluateTexture.decision, verdict_consistent, getitem.
    destruct det as [d|e]; [|verdict_cases].
    destruct (d !! "success") as [ok|] eqn:Hs; [|verdict_cases].
    destruct (truthy ok) eqn:Hok; cbn [negb]; [|verdict_cases].
    destruct (d !! "avg_score") as [avg|]; [|verdict_cases].
    destruct avg as [|b|n|q| |s|l];
      cbn [EvaluateTexture.lt_float as_number EvaluateTexture.one_minus];
      try verdict_cases;
      match goal with |- context [Qltb ?a ?b] => destruct (Qltb a b) end;
      verdict_cases.
Qed.

Lemma wrappers_build_consistent_verdicts_witness :
  let d : gmap string pyval := <["success" := PBool true]> ∅ in
  Evaluator.prediction (EvaluateBlink.decision "a.mp4" (Returns d)) = None /\
  Evaluator.confidence (EvaluateBlink.decision "a.mp4" (Returns d)) = PInt 0.
Proof.
  intros d. split; [reflexivity|].
  destruct (proj1 (wrappers_build_consistent_verdicts "a.mp4" (Returns d)))
    as (_ & _ & _ & Hconf & _).
  apply Hconf. reflexivity.
Defined.



(** ** Collecting the videos of a directory *)












(** ** Ranges of the dataset metrics *)

Lemma percent_as_ratio (n d : Z) :
  d <> 0 -> (percent n d == inject_Z (100 * n) / inject_Z d)%Q.
Proof.
  intros Hd. unfold percent. destruct (Z.eqb_spec d 0); [contradiction|].
  rewrite (inject_Z_mult 100 n). change (inject_Z 100) with 100%Q.
  field. change 0%Q with (inject_Z 0). rewrite inject_Z_injective. exact Hd.
Qed.

Lemma percent_range (n d : Z) :
  0 <= n <= d -> (0 <= percent n d <= 100)%Q.
Proof.
  intros Hnd. destruct (Z.eq_dec d 0) as [->|Hd].
  - unfold percent. cbn. split; discriminate.
  - rewrite percent_as_ratio by exact Hd. split.
    + change 0%Q with (inject_Z 0 / inject_Z 1)%Q. apply ratio_le; lia.
    + change 100%Q with (inject_Z 100 / inject_Z 1)%Q. apply ratio_le; lia.
Qed.

Lemma percent_antitone (n d d' : Z) :
  0 <= n <= d -> d <= d' -> (percent n d' <= percent n d)%Q.
Proof.
  intros Hnd Hdd. destruct (Z.eq_dec d 0) as [->|Hd].
  - assert (n = 0) as -> by lia.
    destruct (Z.eq_dec d' 0) as [->|Hd']; [apply Qle_refl|].
    change (percent 0 0) with (inject_Z 0 / inject_Z 1)%Q.
    rewrite percent_as_ratio by exact Hd'. apply ratio_le; lia.
  - rewrite !percent_as_ratio by lia. apply ratio_le; nia.
Qed.

Lemma correct_is_diagonal l :
  tally Evaluator.is_correct l =
  tally (hits Evaluator.FAKE Evaluator.FAKE) l + tally (hits Evaluator.REAL Evaluator.REAL) l.
Proof.
  induction l as [|r l IH]; [reflexivity|].
  rewrite !tally_cons, IH. unfold Evaluator.is_correct, hits.
  destruct r as [v gt]. cbn [Evaluator.verdict_of Evaluator.ground_truth].
  destruct (Evaluator.prediction v) as [[]|], gt; cbn; lia.
Qed.

Lemma full_metrics_percent l :
  let c := Evaluator.count_all l in
  let s := Evaluator.full_metrics l in
  Evaluator.confusion_matrix s = c /\
  Evaluator.accuracy s = percent (Evaluator.correct c) (cells c) /\
  Evaluator.precision s = percent (Evaluator.tp c) (Evaluator.tp c + Evaluator.fp c) /\
  Evaluator.recall s = percent (Evaluator.tp c) (Evaluator.tp c + Evaluator.fn c) /\
  Evaluator.f1_score s =
    (if Qeq_bool (Evaluator.precision s + Evaluator.recall s) 0 then 0
     else 2 * Evaluator.precision s * Evaluator.recall s
          / (Evaluator.precision s + Evaluator.recall s))%Q.
Proof.
  cbv zeta. unfold Evaluator.full_metrics, percent, cells.
  cbn [Evaluator.confusion_matrix Evaluator.accuracy Evaluator.precision
       Evaluator.recall Evaluator.f1_score].
  split; [reflexivity|].
  split; [by destruct (_ =? 0)|]. split; [by destruct (_ =? 0)|].
  split; [by destruct (_ =? 0)|]. by destruct (Qeq_bool _ 0).
Qed.

Lemma f1_range (p r : Q) :
  (0 <= p <= 100)%Q -> (0 <= r <= 100)%Q ->
  (0 <= (if Qeq_bool (p + r) 0 then 0 else 2 * p * r / (p + r)) <= 100)%Q.
Proof.
  intros [Hp0 Hp1] [Hr0 Hr1]. destruct (Qeq_bool (p + r) 0) eqn:E.
  - split; discriminate.
  - apply Qeq_bool_neq in E.
    assert (Hpos : (0 < p + r)%Q).
    { destruct (Qle_lt_or_eq 0 (p + r)) as [Hlt|Heq]; [lra | exact Hlt|].
      exfalso. apply E. by symmetry. }
    split.
    + apply Qle_shift_div_l; [exact Hpos|]. nra.
    + apply Qle_shift_div_r; [exact Hpos|]. nra.
Qed.

(** X19.  For every batch: the [correct] count of the confusion-matrix
    evaluators is TP + TN; accuracy, precision, recall and F1 of the emotion
    and texture evaluators, and the accuracy of the blink and headpose
    evaluators, all lie between 0 and 100. *)
Theorem metrics_within_range (all_results : list Evaluator.labeled) :
  let s := Evaluator.full_metrics all_results in
  let c := Evaluator.confusion_matrix s in
  Evaluator.correct c = Evaluator.tp c + Evaluator.tn c /\
  (0 <= Evaluator.accuracy s <= 100)%Q /\
  (0 <= Evaluator.precision s <= 100)%Q /\
  (0 <= Evaluator.recall s <= 100)%Q /\
  (0 <= Evaluator.f1_score s <= 100)%Q /\
  (0 <= Evaluator.simple_accuracy (Evaluator.simple_metrics all_results) <= 100)%Q.
Proof.
  cbv zeta.
  destruct (full_metrics_percent all_results) as (Hc & Ha & Hp & Hr & Hf).
  cbv zeta in *. rewrite Hc.
  assert (Hdiag : Evaluator.correct (Evaluator.count_all all_results) =
                  Evaluator.tp (Evaluator.count_all all_results) +
                  Evaluator.tn (Evaluator.count_all all_results)).
  { rewrite count_all_tallies. cbn. apply correct_is_diagonal. }
  assert (Hnn : 0 <= Evaluator.tp (Evaluator.count_all all_results) /\
                0 <= Evaluator.tn (Evaluator.count_all all_results) /\
                0 <= Evaluator.fp (Evaluator.count_all all_results) /\
                0 <= Evaluator.fn (Evaluator.count_all all_results)).
  { rewrite count_all_tallies. cbn. repeat split; apply tally_bounds. }
  destruct Hnn as (? & ? & ? & ?).
  assert (HP : (0 <= Evaluator.precision (Evaluator.full_metrics all_results) <= 100)%Q)
    by (rewrite Hp; apply percent_range; lia).
  assert (HR : (0 <= Evaluator.recall (Evaluator.full_metrics all_results) <= 100)%Q)
    by (rewrite Hr; apply percent_range; lia).
  split; [exact Hdiag|].
  split; [rewrite Ha; apply percent_range; unfold cells; lia|].
  split; [exact HP|]. split; [exact HR|].
  split; [rewrite Hf; by apply f1_range|].
  unfold Evaluator.simple_metrics. cbn [Evaluator.simple_accuracy].
  fold (tally Evaluator.is_correct all_results).
  pose proof (tally_bounds Evaluator.is_correct all_results) as Hb.
  destruct (Z.ltb_spec 0 (Z.of_nat (length all_results))); [|split; discriminate].
  pose proof (percent_range (tally Evaluator.is_correct all_results)
                (Z.of_nat (length all_results)) Hb) as Hpr.
  unfold percent in Hpr.
  destruct (Z.eqb_spec (Z.of_nat (length all_results)) 0); [lia | exact Hpr].
Qed.

(** X20.  On the same batch the blink-style accuracy (correct over all
    videos) is never above the accuracy of the confusion-matrix evaluators
    (correct over the videos with a prediction), and the two are equal when
    every video has a prediction. *)
Theorem failed_videos_lower_simple_accuracy (all_results : list Evaluator.labeled) :
  (Evaluator.simple_accuracy (Evaluator.simple_metrics all_results) <=
   Evaluator.accuracy (Evaluator.full_metrics all_results))%Q /\
  (Forall (fun r => Evaluator.prediction (Evaluator.verdict_of r) <> None) all_results ->
   Evaluator.simple_accuracy (Evaluator.simple_metrics all_results) =
   Evaluator.accuracy (Evaluator.full_metrics all_results)).
Proof.
  destruct (full_metrics_percent all_results) as (_ & Ha & _).
  cbv zeta in Ha. rewrite Ha.
  assert (Hs : Evaluator.simple_accuracy (Evaluator.simple_metrics all_results) =
               percent (tally Evaluator.is_correct all_results)
                 (Z.of_nat (length all_results))).
  { unfold Evaluator.simple_metrics, percent. cbn [Evaluator.simple_accuracy].
    fold (tally Evaluator.is_correct all_results).
    destruct (Z.ltb_spec 0 (Z.of_nat (length all_results)));
      destruct (Z.eqb_spec (Z.of_nat (length all_results)) 0); try lia; reflexivity. }
  rewrite Hs, cells_count_all.
  assert (Hc : Evaluator.correct (Evaluator.count_all all_results) =
               tally Evaluator.is_correct all_results)
    by (by rewrite count_all_tallies).
  rewrite Hc.
  pose proof (tally_bounds has_prediction all_results) as Hb.
  assert (Hle : 0 <= tally Evaluator.is_correct all_results
                <= tally has_prediction all_results).
  { split; [apply tally_bounds|].
    rewrite correct_is_diagonal, <- cells_count_all, count_all_tallies.
    unfold cells. cbn.
    pose proof (tally_bounds (hits Evaluator.REAL Evaluator.FAKE) all_results).
    pose proof (tally_bounds (hits Evaluator.FAKE Evaluator.REAL) all_results). lia. }
  split.
  - apply percent_antitone; lia.
  - intros Hall.
    assert (Hfull : tally has_prediction all_results = Z.of_nat (length all_results)).
    { apply tally_full. eapply Forall_impl; [exact Hall|].
      intros r Hr. unfold has_prediction. simpl in *.
      destruct (Evaluator.prediction (Evaluator.verdict_of r));
        [reflexivity | congruence]. }
    by rewrite Hfull.
Qed.

Lemma failed_videos_lower_simple_accuracy_witness :
  (Evaluator.simple_accuracy (Evaluator.simple_metrics two_fake_videos) <=
   Evaluator.accuracy (Evaluator.full_metrics two_fake_videos))%Q /\
  (Evaluator.accuracy (Evaluator.full_metrics two_fake_videos) == 100)%Q.
Proof.
  split; [apply (proj1 (failed_videos_lower_simple_accuracy two_fake_videos))|].
  vm_compute. reflexivity.
Defined.

(** ** The orchestrator beyond the caught failures *)

Lemma wait_some_inv i schedule : forall done done' schedule',
  Orchestrator.wait i done schedule = Some (done', schedule') ->
  i ∈ done ++ schedule /\
  (forall j, j ∈ done' ++ schedule' <-> j ∈ done ++ schedule).
Proof.
  induction schedule as [|j rest IH]; intros done done' schedule';
    cbn [Orchestrator.wait]; case_bool_decide as Hd.
  - intros [= <- <-]. rewrite app_nil_r. by split.
  - discriminate.
  - intros [= <- <-]. split; [|done]. rewrite elem_of_app. by left.
  - intros Hw. destruct (IH _ _ _ Hw) as [Hi Hsame]. split.
    + rewrite elem_of_app, !elem_of_cons in *. tauto.
    + intros k. rewrite Hsame. rewrite !elem_of_app, !elem_of_cons. tauto.
Qed.

Lemma run_detector_raises e name py scr err :
  Orchestrator.run_detector e name py scr = Raises err <->
  Orchestrator.subprocess_run e py scr = Orchestrator.SpawnError err.
Proof.
  unfold Orchestrator.run_detector.
  destruct (Orchestrator.subprocess_run e py scr) as [rc out se|err'].
  - destruct (negb (rc =? 0)); [split; discriminate|].
    destruct (Orchestrator.json_loads e out); [split; discriminate|].
    destruct (Orchestrator.json_file e _); split; discriminate.
  - split; congruence.
Qed.

Lemma collect_printed_inv e futures : forall done schedule results printed,
  Orchestrator.collect e futures done schedule results = Orchestrator.Printed printed ->
  Forall (fun it => it.1 ∈ done ++ schedule) futures /\
  Forall (fun it => forall err,
            Orchestrator.subprocess_run e it.2.2.1 it.2.2.2 <> Orchestrator.SpawnError err)
    futures /\
  printed = foldl (fun acc it => Orchestrator.dict_set acc it.2.1 (slot_of e it.2))
              results futures.
Proof.
  induction futures as [|[i [name [py scr]]] rest IH];
    intros done schedule results printed; cbn [Orchestrator.collect].
  - intros [= <-]. repeat split; constructor.
  - destruct (Orchestrator.wait i done schedule) as [[done' schedule']|] eqn:Hw;
      [|discriminate].
    destruct (Orchestrator.run_detector e name py scr) as [[n r]|err] eqn:Hrun;
      [|discriminate].
    intros Hc. destruct (IH _ _ _ _ Hc) as (Hin & Hno & Hp).
    destruct (wait_some_inv _ _ _ _ _ Hw) as [Hi Hsame].
    split; [|split].
    + constructor; [exact Hi|]. eapply Forall_impl; [exact Hin|].
      intros it Hit. by apply Hsame.
    + constructor; [|exact Hno]. cbn [fst snd]. intros err Herr.
      apply (proj2 (run_detector_raises e name py scr err)) in Herr. congruence.
    + cbn [foldl fst snd]. unfold slot_of at 2. cbn [fst snd]. rewrite Hrun.
      by rewrite <- (run_detector_name _ _ _ _ _ _ Hrun).
Qed.

(** X21.  [main] never prints a partial report.  Whatever the tasks do and
    in whatever order they finish, if [main] prints then every one of the
    four futures has finished, no [subprocess.run] raised, and the report has
    exactly the four keys emotion, blink, headpose, texture, in this order. *)
Theorem main_prints_only_complete_reports
  (e : Orchestrator.env) (schedule : list nat)
  (printed : list (string * Orchestrator.json)) :
  Orchestrator.main e schedule = Orchestrator.Printed printed ->
  (forall i, (i < 4)%nat -> i ∈ schedule) /\
  Forall (fun t => forall err,
            Orchestrator.subprocess_run e t.2.1 t.2.2 <> Orchestrator.SpawnError err)
    Orchestrator.SCRIPTS /\
  map fst printed = ["emotion"; "blink"; "headpose"; "texture"]%string /\
  printed = map (fun t => (t.1, slot_of e t)) Orchestrator.SCRIPTS.
Proof.
  unfold Orchestrator.main. intros Hc.
  apply collect_printed_inv in Hc as (Hin & Hno & Hp).
  unfold Orchestrator.SCRIPTS in *. cbn [imap app] in Hin, Hno.
  split; [|split; [|split]].
  - intros i Hi.
    repeat (apply Forall_cons in Hin as [? Hin]). cbn [fst] in *.
    destruct i as [|[|[|[|i]]]]; try assumption. lia.
  - repeat (apply Forall_cons in Hno as [? Hno]). cbn [fst snd] in *.
    repeat constructor; assumption.
  - subst printed. reflexivity.
  - subst printed. reflexivity.
Qed.

Lemma main_prints_only_complete_reports_witness :
  (forall i, (i < 4)%nat -> i ∈ [3; 1; 0; 2]%nat) /\
  exists printed,
    Orchestrator.main blink_crashes [3; 1; 0; 2]%nat = Orchestrator.Printed printed /\
    map fst printed = ["emotion"; "blink"; "headpose"; "texture"]%string.
Proof.
  destruct (main_prints_only_complete_reports blink_crashes [3; 1; 0; 2]%nat
              _ eq_refl) as (Hall & _ & Hkeys & _).
  split; [exact Hall|]. eexists. split; [reflexivity | exact Hkeys].
Defined.

Lemma collect_uncaught e futures : forall done schedule results,
  Forall (fun it => it.1 ∈ done ++ schedule) futures ->
  Exists (fun it => exists err,
            Orchestrator.subprocess_run e it.2.2.1 it.2.2.2 = Orchestrator.SpawnError err)
    futures ->
  exists err,
    Orchestrator.collect e futures done schedule results = Orchestrator.Uncaught err /\
    Exists (fun it =>
              Orchestrator.subprocess_run e it.2.2.1 it.2.2.2 = Orchestrator.SpawnError err)
      futures.
Proof.
  induction futures as [|[i [name [py scr]]] rest IH];
    intros done schedule results Hin Hex; [by apply Exists_nil in Hex|].
  apply Forall_cons in Hin as [Hi Hin]. cbn [fst] in Hi.
  destruct (wait_returns i schedule done Hi) as (done' & schedule' & Hw & Hsub).
  cbn [Orchestrator.collect]. rewrite Hw.
  destruct (Orchestrator.run_detector e name py scr) as [[n r]|err] eqn:Hrun.
  - apply Exists_cons in Hex as [[err Herr]|Hex].
    { cbn [fst snd] in Herr.
      apply (proj2 (run_detector_raises e name py scr err)) in Herr. congruence. }
    destruct (IH done' schedule' (Orchestrator.dict_set results n r)) as (err & Hc & He).
    + eapply Forall_impl; [exact Hin|]. intros it Hit. by apply Hsub.
    + exact Hex.
    + exists err. split; [exact Hc|]. by apply Exists_cons_tl.
  - exists err. split; [reflexivity|]. apply Exists_cons_hd. cbn [fst snd].
    by apply (proj1 (run_detector_raises e name py scr err)).
Qed.

(** X22.  Failure isolation covers only a non-zero exit and unparsable
    output.  When the [subprocess.run] call of any family itself raises (for
    instance because its interpreter does not exist), the exception leaves
    [run_detector] uncaught and [main] ends with it: nothing is printed, not
    even the results of the families that succeeded. *)
Theorem spawn_error_aborts_main (e : Orchestrator.env) (schedule : list nat) :
  schedule ≡ₚ [0; 1; 2; 3]%nat ->
  Exists (fun t => exists err,
            Orchestrator.subprocess_run e t.2.1 t.2.2 = Orchestrator.SpawnError err)
    Orchestrator.SCRIPTS ->
  exists err,
    Orchestrator.main e schedule = Orchestrator.Uncaught err /\
    Exists (fun t => Orchestrator.subprocess_run e t.2.1 t.2.2 = Orchestrator.SpawnError err)
      Orchestrator.SCRIPTS.
Proof.
  intros Hperm Hex. unfold Orchestrator.main.
  destruct (collect_uncaught e (imap (fun i t => (i, t)) Orchestrator.SCRIPTS)
              [] schedule []) as (err & Hc & He).
  - cbn [app]. unfold Orchestrator.SCRIPTS. cbn [imap].
    repeat constructor; cbn [fst]; rewrite Hperm; rewrite !elem_of_cons; tauto.
  - unfold Orchestrator.SCRIPTS in *. cbn [imap].
    rewrite !Exists_cons, Exists_nil in *. cbn [fst snd] in *. tauto.
  - exists err. split; [exact Hc|].
    unfold Orchestrator.SCRIPTS in *. cbn [imap] in He.
    rewrite !Exists_cons, Exists_nil in *. cbn [fst snd] in *. tauto.
Qed.

Lemma spawn_error_aborts_main_witness :
  Orchestrator.main no_venv [0; 1; 2; 3]%nat = Orchestrator.Uncaught "FileNotFoundError" /\
  exists err,
    Orchestrator.main no_venv [2; 0; 3; 1]%nat = Orchestrator.Uncaught err.
Proof.
  split; [reflexivity|].
  destruct (spawn_error_aborts_main no_venv [2; 0; 3; 1]%nat) as (err & Hm & _).
  - apply (Permutation_trans (perm_swap 0%nat 2%nat [3; 1]%nat)).
    apply perm_skip.
    apply (Permutation_trans (perm_skip 2%nat (perm_swap 1%nat 3%nat []))).
    apply (perm_swap 1%nat 2%nat [3]%nat).
  - apply Exists_cons_tl, Exists_cons_hd. by exists "FileNotFoundError"%string.
  - by exists err.
Defined.

(** X23.  What [run_detector] returns for a child that ran: with a non-zero
    exit status the value is null, whatever the child printed and whatever
    report file exists; with status 0 and parsable output the value is the
    parsed document and no file is consulted; only with status 0 and
    unparsable output is the file [<name>_evaluation.json] read (for every
    name: the special case for emotion names the same file), giving its
    document, or null when it cannot be read. *)
Theorem run_detector_by_cases
  (e : Orchestrator.env) (name python_exec script : string)
  (returncode : Z) (stdout stderr : string) :
  Orchestrator.subprocess_run e python_exec script =
    Orchestrator.Completed returncode stdout stderr ->
  Orchestrator.fallback_filename name = (name ++ "_evaluation.json")%string /\
  (returncode <> 0 ->
   Orchestrator.run_detector e name python_exec script =
     Returns (name, Orchestrator.JNull)) /\
  (returncode = 0 -> forall doc,
   Orchestrator.json_loads e stdout = Some doc ->
   Orchestrator.run_detector e name python_exec script = Returns (name, doc)) /\
  (returncode = 0 ->
   Orchestrator.json_loads e stdout = None ->
   Orchestrator.run_detector e name python_exec script =
     Returns (name,
              match Orchestrator.json_file e (name ++ "_evaluation.json")%string with
              | Some doc => doc
              | None => Orchestrator.JNull
              end)).
Proof.
  intros Hrun.
  assert (Hname : Orchestrator.fallback_filename name = (name ++ "_evaluation.json")%string).
  { unfold Orchestrator.fallback_filename.
    destruct (String.eqb_spec name "emotion") as [->|]; reflexivity. }
  unfold Orchestrator.run_detector. rewrite Hrun, Hname.
  split; [reflexivity|]. split; [|split].
  - intros Hrc. destruct (Z.eqb_spec returncode 0); [contradiction | reflexivity].
  - intros -> doc Hl. cbn [Z.eqb negb]. by rewrite Hl.
  - intros -> Hl. cbn [Z.eqb negb]. rewrite Hl.
    by destruct (Orchestrator.json_file e _).
Qed.

Lemma run_detector_by_cases_witness :
  Orchestrator.run_detector blink_crashes "blink" Orchestrator.PY_VENV "evaluate_blink.py"
    = Returns ("blink"%string, Orchestrator.JNull).
Proof.
  apply (proj1 (proj2 (run_detector_by_cases blink_crashes "blink" Orchestrator.PY_VENV
                         "evaluate_blink.py" 1 EmptyString "Traceback" eq_refl))).
  discriminate.
Defined.

(** ** Whole dataset runs *)

Ltac case_all :=
  repeat match goal with
    | |- context [match ?x with _ => _ end] => destruct x
    | |- context [if ?x then _ else _] => destruct x
    end.

Lemma blink_decision_path path det :
  Evaluator.video_path (EvaluateBlink.decision path det) = path.
Proof. unfold EvaluateBlink.decision, getitem. case_all; reflexivity. Qed.

Lemma headpose_decision_path path det :
  Evaluator.video_path (EvaluateHeadpose.decision path det) = path.
Proof. unfold EvaluateHeadpose.decision, getitem. case_all; reflexivity. Qed.

Lemma emotion_decision_path path det :
  Evaluator.video_path (EvaluateEmotion.decision path det) = path.
Proof. unfold EvaluateEmotion.decision, getitem. case_all; reflexivity. Qed.

Lemma texture_decision_path path det :
  Evaluator.video_path (EvaluateTexture.decision path det) = path.
Proof.
  unfold EvaluateTexture.decision, getitem, EvaluateTexture.lt_float,
    EvaluateTexture.one_minus.
  case_all; reflexivity.
Qed.

Lemma batches_layout (analyze_video : string -> Evaluator.verdict)
  (fake_videos real_videos : list string) :
  (forall p, Evaluator.video_path (analyze_video p) = p) ->
  let all_results :=
    Evaluator.batch analyze_video Evaluator.FAKE fake_videos ++
    Evaluator.batch analyze_video Evaluator.REAL real_videos in
  map (fun r => Evaluator.video_path (Evaluator.verdict_of r)) all_results
    = fake_videos ++ real_videos /\
  map Evaluator.ground_truth all_results
    = replicate (length fake_videos) Evaluator.FAKE ++
      replicate (length real_videos) Evaluator.REAL.
Proof.
  intros Hpath. cbv zeta. unfold Evaluator.batch. rewrite !map_app, !map_map.
  cbn [Evaluator.verdict_of Evaluator.ground_truth]. split.
  - f_equal; (erewrite map_ext; [apply map_id|]); intros p; cbn; apply Hpath.
  - f_equal; [induction fake_videos | induction real_videos]; cbn; congruence.
Qed.

(** X24.  Whenever one of the four evaluators hands back its verdict list,
    the list holds the videos collected from the fake directory first, each
    labelled FAKE, then those of the real directory, each labelled REAL, in
    collection order and each under its own path; and the same list is what
    the written report holds. *)
Theorem dataset_results_layout
  (w : Evaluator.world) (fake_dir real_dir output_file : string)
  (sqrt : Q -> Q) (arctan2 : Q -> Q -> Q)
  (blink_at : string -> BlinkDetector.video)
  (headpose_at : string -> HeadposeDetector.video)
  (texture_at : string -> TextureDetector.video)
  (analyze_emotion : string -> outcome (gmap string pyval)) :
  laid_out w fake_dir real_dir
    (EvaluateBlink.process_dataset sqrt blink_at w fake_dir real_dir output_file) /\
  laid_out w fake_dir real_dir
    (EvaluateHeadpose.process_dataset arctan2 sqrt headpose_at w
       fake_dir real_dir output_file) /\
  laid_out w fake_dir real_dir
    (EvaluateEmotion.process_dataset analyze_emotion w fake_dir real_dir output_file) /\
  laid_out w fake_dir real_dir
    (EvaluateTexture.process_dataset texture_at w fake_dir real_dir output_file).
Proof.
  unfold laid_out, EvaluateBlink.process_dataset, EvaluateHeadpose.process_dataset,
    EvaluateEmotion.process_dataset, EvaluateTexture.process_dataset.
  destruct (Evaluator.collect_videos w fake_dir) as [fake_videos|e1];
    cbn [mbind outcome_bind]; [|repeat split; intros; discriminate].
  destruct (Evaluator.collect_videos w real_dir) as [real_videos|e2];
    cbn [mbind outcome_bind]; [|repeat split; intros; discriminate].
  pose proof (batches_layout (EvaluateBlink.analyze_video sqrt blink_at)
                fake_videos real_videos
                (fun p => blink_decision_path p _)) as [Hp1 Hg1].
  pose proof (batches_layout (EvaluateHeadpose.analyze_video arctan2 sqrt headpose_at)
                fake_videos real_videos
                (fun p => headpose_decision_path p _)) as [Hp2 Hg2].
  pose proof (batches_layout (EvaluateEmotion.analyze_video analyze_emotion)
                fake_videos real_videos
                (fun p => emotion_decision_path p _)) as [Hp3 Hg3].
  pose proof (batches_layout (EvaluateTexture.analyze_video texture_at)
                fake_videos real_videos
                (fun p => texture_decision_path p _)) as [Hp4 Hg4].
  split; [|split; [|split]]; intros r all_results.
  - destruct (length fake_videos + length real_videos =? 0)%nat;
      intros [= <-]; cbn [Evaluator.returned Evaluator.written]; intros [= <-].
    exists fake_videos, real_videos. repeat (split; [done|]).
    eexists. split; reflexivity.
  - destruct (length fake_videos + length real_videos =? 0)%nat;
      intros [= <-]; cbn [Evaluator.returned Evaluator.written]; intros [= <-].
    exists fake_videos, real_videos. repeat (split; [done|]).
    eexists. split; reflexivity.
  - destruct (length fake_videos + length real_videos =? 0)%nat;
      intros [= <-]; cbn [Evaluator.returned Evaluator.written]; intros [= <-].
    exists fake_videos, real_videos. repeat (split; [done|]).
    eexists. split; reflexivity.
  - intros [= <-]; cbn [Evaluator.returned Evaluator.written]; intros [= <-].
    exists fake_videos, real_videos. repeat (split; [done|]).
    eexists. split; reflexivity.
Qed.

Lemma dataset_results_layout_witness :
  exists r all_results,
    EvaluateTexture.process_dataset (fun _ => []) one_dataset "fake" "real" "report.json"
      = Returns r /\
    Evaluator.returned r = Some all_results /\
    map (fun v => Evaluator.video_path (Evaluator.verdict_of v)) all_results
      = ["fake/a.mp4"; "fake/b.MP4"]%string /\
    map Evaluator.ground_truth all_results = [Evaluator.FAKE; Evaluator.FAKE].
Proof.
  eexists. eexists. split; [reflexivity|]. split; [reflexivity|].
  destruct (proj2 (proj2 (proj2
              (dataset_results_layout one_dataset "fake" "real" "report.json"
                 approx_sqrt (fun _ _ => 0%Q) (fun _ => unopened)
                 (fun _ => {| HeadposeDetector.opened := false;
                              HeadposeDetector.frames := [] |})
                 (fun _ => []) (fun _ => Raises "unavailable"))))
              _ _ eq_refl eq_refl)
    as (fv & rv & Hf & Hr & Hp & Hg & _).
  assert (Hf' : Evaluator.collect_videos one_dataset "fake" =
                Returns ["fake/a.mp4"; "fake/b.MP4"]%string) by (vm_compute; reflexivity).
  rewrite Hf' in Hf. injection Hf as <-.
  assert (Hr' : Evaluator.collect_videos one_dataset "real" = Returns []) by reflexivity.
  rewrite Hr' in Hr. injection Hr as <-.
  split; [exact Hp | exact Hg].
Defined.

(** X25.  The evaluators test a dataset path with [os.path.exists] only.  A
    path that exists but is not a directory makes [os.listdir] raise, and the
    run of every one of the four evaluators ends with that exception, before
    any video is analysed and without a report. *)
Theorem dataset_path_not_a_directory
  (w : Evaluator.world) (fake_dir real_dir output_file : string)
  (sqrt : Q -> Q) (arctan2 : Q -> Q -> Q)
  (blink_at : string -> BlinkDetector.video)
  (headpose_at : string -> HeadposeDetector.video)
  (texture_at : string -> TextureDetector.video)
  (analyze_emotion : string -> outcome (gmap string pyval)) :
  Evaluator.disk w fake_dir = Evaluator.NotADirectory \/
  Evaluator.disk w real_dir = Evaluator.NotADirectory ->
  EvaluateBlink.process_dataset sqrt blink_at w fake_dir real_dir output_file
    = Raises "NotADirectoryError" /\
  EvaluateHeadpose.process_dataset arctan2 sqrt headpose_at w fake_dir real_dir output_file
    = Raises "NotADirectoryError" /\
  EvaluateEmotion.process_dataset analyze_emotion w fake_dir real_dir output_file
    = Raises "NotADirectoryError" /\
  EvaluateTexture.process_dataset texture_at w fake_dir real_dir output_file
    = Raises "NotADirectoryError".
Proof.
  unfold EvaluateBlink.process_dataset, EvaluateHeadpose.process_dataset,
    EvaluateEmotion.process_dataset, EvaluateTexture.process_dataset,
    Evaluator.collect_videos.
  intros [H|H]; rewrite H.
  - repeat split.
  - destruct (Evaluator.disk w fake_dir); repeat split.
Qed.

Lemma dataset_path_not_a_directory_witness :
  EvaluateTexture.process_dataset (fun _ => []) real_is_a_file "fake" "real" "report.json"
    = Raises "NotADirectoryError".
Proof.
  apply (dataset_path_not_a_directory real_is_a_file "fake" "real" "report.json"
           approx_sqrt (fun _ _ => 0%Q) (fun _ => unopened)
           (fun _ => {| HeadposeDetector.opened := false; HeadposeDetector.frames := [] |})
           (fun _ => []) (fun _ => Raises "unavailable")).
  right. reflexivity.
Defined.

(** ** From video to verdict *)

Lemma analyze_blink_flags sqrt v max_frames frame_interval :
  BlinkDetector.opened v = true -> frame_interval <> 0 ->
  measured_by max_frames frame_interval (BlinkDetector.frames v) <> [] ->
  exists d s,
    BlinkDetector.analyze_blink sqrt v max_frames frame_interval = Returns d /\
    d !! "success" = Some (PBool true) /\
    d !! "suspicious" = Some (PBool s).
Proof.
  intros Ho Hne Hm. unfold BlinkDetector.analyze_blink. rewrite Ho. cbn [negb].
  destruct (loop_measures max_frames frame_interval (BlinkDetector.frames v) Hne)
    as (st & Hl & _ & _ & Hh).
  rewrite Hl. cbn [mbind outcome_bind]. rewrite Hh.
  destruct (last_n 5 _) as [|e0 h] eqn:Hw;
    [apply (proj1 (last_n_nil_iff _)) in Hw; contradiction|].
  destruct (BlinkDetector.heuristic _ _ _) as [s r].
  eexists _, s. split; [reflexivity|]. by simplify_map_eq.
Qed.

Lemma analyze_headpose_flags arctan2 sqrt v save_debug max_debug_frames :
  HeadposeDetector.opened v = true ->
  faces_of (HeadposeDetector.frames v) <> [] ->
  exists s,
    HeadposeDetector.analyze_headpose arctan2 sqrt v save_debug max_debug_frames
      !! "success" = Some (PBool true) /\
    HeadposeDetector.analyze_headpose arctan2 sqrt v save_debug max_debug_frames
      !! "suspicious" = Some (PBool s).
Proof.
  intros Ho Hf. unfold HeadposeDetector.analyze_headpose. rewrite Ho. cbn [negb].
  destruct (headpose_loop arctan2 save_debug max_debug_frames
              (HeadposeDetector.frames v)) as (Hp & _).
  cbv zeta in Hp. rewrite Hp.
  destruct (faces_of (HeadposeDetector.frames v)) as [|f fs]; [done|].
  cbn [map]. destruct (HeadposeDetector.heuristic _) as [s r].
  exists s. by simplify_map_eq.
Qed.

(** X26.  From video to verdict, with the arguments the evaluators use.  A
    blink video that cannot be opened, or in which none of the frames looked
    at (every third one, up to 100) shows a face, leaves the untouched
    initial verdict: no prediction, confidence 0 and no error.  Every other
    blink video gets a prediction, FAKE with confidence 0.8 or REAL with
    0.9, and no error.  The same holds for head pose, where every frame is
    looked at. *)
Theorem videos_to_verdicts
  (sqrt : Q -> Q) (arctan2 : Q -> Q -> Q)
  (blink_at : string -> BlinkDetector.video)
  (headpose_at : string -> HeadposeDetector.video) (path : string) :
  let b := EvaluateBlink.analyze_video sqrt blink_at path in
  let h := EvaluateHeadpose.analyze_video arctan2 sqrt headpose_at path in
  let measured := measured_by 100 3 (BlinkDetector.frames (blink_at path)) in
  let faces := faces_of (HeadposeDetector.frames (headpose_at path)) in
  (BlinkDetector.opened (blink_at path) = false \/ measured = [] ->
   b = Evaluator.fresh path) /\
  (BlinkDetector.opened (blink_at path) = true -> measured <> [] ->
   Evaluator.error b = None /\
   ((Evaluator.prediction b = Some Evaluator.FAKE /\ Evaluator.confidence b = PFloat 0.8) \/
    (Evaluator.prediction b = Some Evaluator.REAL /\ Evaluator.confidence b = PFloat 0.9))) /\
  (HeadposeDetector.opened (headpose_at path) = false \/ faces = [] ->
   h = Evaluator.fresh path) /\
  (HeadposeDetector.opened (headpose_at path) = true -> faces <> [] ->
   Evaluator.error h = None /\
   ((Evaluator.prediction h = Some Evaluator.FAKE /\ Evaluator.confidence h = PFloat 0.8) \/
    (Evaluator.prediction h = Some Evaluator.REAL /\ Evaluator.confidence h = PFloat 0.9))).
Proof.
  cbv zeta. unfold EvaluateBlink.analyze_video, EvaluateHeadpose.analyze_video.
  split; [|split; [|split]].
  - intros H.
    assert (Hfail : exists reason,
              BlinkDetector.analyze_blink sqrt (blink_at path) 100 3
              = Returns (failure reason)).
    { destruct (BlinkDetector.opened (blink_at path)) eqn:Ho.
      - destruct H as [H|H]; [discriminate|].
        exists "no_faces_detected"%string.
        unfold BlinkDetector.analyze_blink. rewrite Ho. cbn [negb].
        destruct (loop_measures 100 3 (BlinkDetector.frames (blink_at path)))
          as (st & Hl & _ & _ & Hh); [discriminate|].
        rewrite Hl. cbn [mbind outcome_bind]. rewrite Hh, H. reflexivity.
      - exists "cannot_open_video"%string.
        unfold BlinkDetector.analyze_blink. by rewrite Ho. }
    destruct Hfail as [reason ->]. reflexivity.
  - intros Ho Hm.
    destruct (analyze_blink_flags sqrt (blink_at path) 100 3 Ho) as (d & s & -> & Hs & Hsus);
      [discriminate | exact Hm|].
    unfold EvaluateBlink.decision, getitem. rewrite Hs, Hsus. cbn [truthy].
    destruct s; cbn; split; auto.
  - intros H.
    assert (Hfail : exists reason,
              HeadposeDetector.analyze_headpose arctan2 sqrt (headpose_at path) true 100
              = failure reason).
    { unfold HeadposeDetector.analyze_headpose.
      destruct (HeadposeDetector.opened (headpose_at path)) eqn:Ho; cbn [negb].
      - destruct H as [H|H]; [discriminate|].
        exists "no_face_detected"%string.
        destruct (headpose_loop arctan2 true 100
                    (HeadposeDetector.frames (headpose_at path))) as (Hp & _).
        cbv zeta in Hp. rewrite Hp, H. reflexivity.
      - by exists "cannot_open_video"%string. }
    destruct Hfail as [reason ->]. reflexivity.
  - intros Ho Hf.
    destruct (analyze_headpose_flags arctan2 sqrt (headpose_at path) true 100 Ho Hf)
      as (s & Hs & Hsus).
    unfold EvaluateHeadpose.decision, getitem. rewrite Hs, Hsus. cbn [truthy].
    destruct s; cbn; split; auto.
Qed.

Lemma videos_to_verdicts_witness :
  EvaluateBlink.analyze_video approx_sqrt
    (fun _ => {| BlinkDetector.opened := true;
                 BlinkDetector.frames := [Some 0.3; Some 0.3; None]%Q |}) "a.mp4"
  = Evaluator.fresh "a.mp4".
Proof.
  apply (proj1 (videos_to_verdicts approx_sqrt (fun _ _ => 0%Q)
                  (fun _ => {| BlinkDetector.opened := true;
                               BlinkDetector.frames := [Some 0.3; Some 0.3; None]%Q |})
                  (fun _ => {| HeadposeDetector.opened := false;
                               HeadposeDetector.frames := [] |}) "a.mp4")).
  right. reflexivity.
Defined.
